(** * ElectronMirror: camera widget, microphone waveform widget, IPC button

    A shallow embedding of the three renderer sources

    - [src/renderer/src/components/AudioVisualizer/index.tsx]
    - [src/renderer/src/components/CameraComponent/index.tsx]
    - [src/renderer/src/App.tsx]

    Numbers.  The per-frame arithmetic of [drawWaveforms] is written in
    JavaScript doubles.  Everything that the code computes with [+], [-],
    [*], [/], [Math.floor], [Math.min], [Math.max] and [Math.abs] is embedded
    over exact rationals ([Q], executable); the point coordinates, which
    need [Math.sin], [Math.PI] and [Math.pow], are embedded over the real
    numbers.  Rounding of doubles is therefore idealised away; a read
    [dataArray[i]] outside the array (JavaScript [undefined], which turns a
    sum into [NaN]) and the division [0 / 0] are kept, as [None]. *)

From Stdlib Require Import ZArith QArith Qabs Qround Qminmax Qpower.
From Stdlib Require Import Reals Qreals Machin.
From Stdlib Require Import List String Ascii Bool.
From Stdlib Require Import Lia Psatz.
Import ListNotations.

(** ** Small numeric helpers shared by the components *)

(** [a < b] on rationals, as a boolean. *)
Definition Qltb (a b : Q) : bool := negb (Qle_bool b a).

(** A JavaScript number that may be [NaN]: [None] is [NaN]. *)
Definition number := option Q.

(** [dataArray[i]] on a [Uint8Array]: [undefined] (here [None]) outside
    [0 .. length - 1]. *)
Definition readByte (dataArray : list Z) (i : Z) : option Z :=
  if (i <? 0)%Z then None else nth_error dataArray (Z.to_nat i).

(** [for (let bin = lo; bin < lo + n; bin++) acc += dataArray[bin]];
    adding [undefined] makes the accumulator [NaN] for good. *)
Fixpoint sumLoop (dataArray : list Z) (lo : Z) (n : nat) (acc : option Z)
  : option Z :=
  match n with
  | O => acc
  | S n' =>
      let acc' :=
        match acc, readByte dataArray lo with
        | Some s, Some b => Some (s + b)%Z
        | _, _ => None
        end in
      sumLoop dataArray (lo + 1) n' acc'
  end.

(** The loop from [lo] while [bin < hi], started at [0]. *)
Definition sumRange (dataArray : list Z) (lo hi : Z) : option Z :=
  sumLoop dataArray lo (Z.to_nat (hi - lo)) (Some 0%Z).

(** ** The platform objects the components hold *)

(** A media track is live until [track.stop()]. *)
Inductive TrackState := Live | Ended.

(** [stream.getTracks().forEach((track) => track.stop())]. *)
Definition stopTracks (tracks : list TrackState) : list TrackState :=
  List.map (fun _ => Ended) tracks.

(** An [AudioContext] runs until [close()]. *)
Inductive ContextState := Running | Closed.

(** The value caught by a [catch]: only its [name] is inspected. *)
Record JsError := mkJsError { errName : string }.

(** JavaScript truthiness of a [string | null]. *)
Definition truthyString (s : option string) : bool :=
  match s with
  | Some (String _ _) => true
  | _ => false
  end.

(** ** AudioVisualizer/index.tsx *)
Module AudioVisualizer.

(** *** Tunable constants (lines 23-27) *)
Definition NUM_LINES : Z := 8.
Definition NOISE_THRESHOLD : Q := 10.
Definition LINE_WIDTH : Q := 12 # 10.
Definition MAX_AMPLITUDE : Q := 300.
Definition IDLE_AMPLITUDE : Q := 10.

(** *** [animationStateRef.current] (lines 30-39) *)
Record AnimationState := mkAnimationState {
  phase : Q;
  baseAmplitude : Q;
  rotationAngle : Q;
  rotationSpeed : Q;
  breathPhase : Q;
  breathSpeed : Q;
  active : bool;
  targetAmplitude : Q
}.

Definition initialAnimationState : AnimationState := {|
  phase := 0;
  baseAmplitude := IDLE_AMPLITUDE;
  rotationAngle := 0;
  rotationSpeed := 20;
  breathPhase := 0;
  breathSpeed := 20;
  active := false;
  targetAmplitude := IDLE_AMPLITUDE
|}.

(** *** The head of [drawWaveforms]: lines 125-141 *)

(** [bufferLength] is the length the [Uint8Array] was created with
    (lines 105-106). *)
Definition bufferLength (dataArray : list Z) : Z :=
  Z.of_nat (List.length dataArray).

(** Lines 126-128: [sum / bufferLength]; [0 / 0] is [NaN]. *)
Definition average (dataArray : list Z) : number :=
  match sumRange dataArray 0 (bufferLength dataArray) with
  | Some sum =>
      if (bufferLength dataArray =? 0)%Z then None
      else Some (inject_Z sum / inject_Z (bufferLength dataArray))
  | None => None
  end.

(** Line 137: [average > NOISE_THRESHOLD + 5]; a comparison with [NaN]
    is false. *)
Definition isActive (avg : number) : bool :=
  match avg with
  | Some a => Qltb (NOISE_THRESHOLD + 5) a
  | None => false
  end.

(** Line 139. In the active branch the average is a number. *)
Definition nextTargetAmplitude (avg : number) : Q :=
  match avg with
  | Some a =>
      if isActive avg then Qmin MAX_AMPLITUDE (a * (5 # 10))
      else IDLE_AMPLITUDE
  | None => IDLE_AMPLITUDE
  end.

(** Lines 131-141: the state after the update of one frame. *)
Definition updateState (st : AnimationState) (dataArray : list Z)
  : AnimationState :=
  let avg := average dataArray in
  let target := nextTargetAmplitude avg in
  {| phase := phase st + (1 # 100);
     breathPhase := breathPhase st + breathSpeed st;
     rotationAngle := rotationAngle st + rotationSpeed st;
     rotationSpeed := rotationSpeed st;
     breathSpeed := breathSpeed st;
     active := isActive avg;
     targetAmplitude := target;
     baseAmplitude :=
       baseAmplitude st + (target - baseAmplitude st) * (1 # 10) |}.

(** *** Frequency bands (lines 203-213) *)

(** Line 204. *)
Definition isMiddleLine (lineIndex : Z) : bool :=
  Qltb (Qabs (inject_Z lineIndex - inject_Z NUM_LINES / 2))
       (inject_Z NUM_LINES * (3 # 10)).

(** Line 205. *)
Definition freqRange (lineIndex len : Z) : Q :=
  if isMiddleLine lineIndex then inject_Z len / 4 else inject_Z len / 3.

(** Lines 207-208. *)
Definition binStart (lineIndex len : Z) : Z :=
  Qfloor ((inject_Z lineIndex / inject_Z NUM_LINES) * freqRange lineIndex len).

Definition binEnd (lineIndex len : Z) : Z :=
  Qfloor ((inject_Z (lineIndex + 1) / inject_Z NUM_LINES)
          * freqRange lineIndex len).

(** Line 213: the divisor [Math.max(1, binEnd - binStart)]. *)
Definition binCount (lineIndex len : Z) : Z :=
  Z.max 1 (binEnd lineIndex len - binStart lineIndex len).

(** Lines 211-212. *)
Definition freqSum (dataArray : list Z) (lineIndex : Z) : option Z :=
  sumRange dataArray
    (binStart lineIndex (bufferLength dataArray))
    (binEnd lineIndex (bufferLength dataArray)).

(** Line 213. *)
Definition freqAvg (dataArray : list Z) (lineIndex : Z) : number :=
  match freqSum dataArray lineIndex with
  | Some s =>
      Some (inject_Z s / inject_Z (binCount lineIndex (bufferLength dataArray)))
  | None => None
  end.

(** *** The body of the point loop (lines 180-236), over the reals *)
Section Points.
Local Open Scope R_scope.

(** [Math.pow(b, 0.5)], which the code applies to [4 * t * (1 - t)]
    with [0 <= t <= 1]: the square root of a non-negative number. *)
Definition Math_pow_half (b : R) : R := sqrt b.

(** A drawn path: [ctx.moveTo(x, y)] for the first point, [ctx.lineTo(x, y)]
    for the others (line 235).  The ordinate is [None] when it is [NaN]. *)
Inductive PathCmd :=
| MoveTo (x : R) (y : option R)
| LineTo (x : R) (y : option R).

Definition cmdX (c : PathCmd) : R :=
  match c with MoveTo x _ | LineTo x _ => x end.
Definition cmdY (c : PathCmd) : option R :=
  match c with MoveTo _ y | LineTo _ y => y end.

Definition points : Z := 128.

Variable st : AnimationState.    (* the state after [updateState] *)
Variable dataArray : list Z.     (* the bytes read in this frame *)
Variable width height : Z.       (* [canvas.width], [canvas.height] *)

Definition centerX : R := IZR width / 2.
Definition centerY : R := IZR height / 2.

(** Line 154. *)
Definition angleOffset (lineIndex : Z) : R :=
  (IZR lineIndex / IZR NUM_LINES) * PI.

(** Line 181. *)
Definition tOf (i : Z) : R := IZR i / IZR points.

(** Line 185. *)
Definition edgeFactor (t : R) : R := Math_pow_half (4 * t * (1 - t)).
(** Line 188. *)
Definition midBoost (t : R) : R := (sin (t * PI)) ^ 3 * (15 / 10).
(** Line 189. *)
Definition enhancedEdgeFactor (t : R) : R := edgeFactor t * (1 + midBoost t).

(** Lines 192 and 196. *)
Definition amplitude (t : R) : R :=
  (Q2R (baseAmplitude st) * enhancedEdgeFactor t)
  * (1 + sin (Q2R (breathPhase st)) * (1 / 100)).

(** Line 216; [NaN] when the band average is. *)
Definition freqFactor (lineIndex : Z) (t : R) : option R :=
  match freqAvg dataArray lineIndex with
  | Some a => Some ((Q2R a / 255) * amplitude t)
  | None => None
  end.

(** Lines 199-225. *)
Definition waveformValue (lineIndex : Z) (t : R) : option R :=
  if active st then
    match freqFactor lineIndex t with
    | Some f =>
        Some (sin (t * 10 + Q2R (phase st) + angleOffset lineIndex) * f
              + sin (t * 20 + Q2R (phase st) * (15 / 10)) * (f * (2 / 10)))
    | None => None
    end
  else
    Some (sin (t * 8 + Q2R (phase st) + angleOffset lineIndex)
            * amplitude t * (25 / 100)
          + sin (t * 16 + Q2R (phase st) * (13 / 10))
            * amplitude t * (5 / 100)).

(** Line 229. *)
Definition xStretch (t : R) : R :=
  1 + sin (Q2R (rotationAngle st) + t * PI * 2) * (3 / 100).

(** Lines 231-232. *)
Definition pointX (t : R) : R :=
  centerX + (t * 2 - 1) * (IZR width * (5 / 10)) * xStretch t.
Definition pointY (lineIndex : Z) (t : R) : option R :=
  match waveformValue lineIndex t with
  | Some v => Some (centerY + v)
  | None => None
  end.

(** Line 235. *)
Definition pathCmd (lineIndex i : Z) : PathCmd :=
  let t := tOf i in
  if (i =? 0)%Z then MoveTo (pointX t) (pointY lineIndex t)
  else LineTo (pointX t) (pointY lineIndex t).

(** Lines 180-236: [for (let i = 0; i <= points; i++)]. *)
Definition curve (lineIndex : Z) : list PathCmd :=
  List.map (fun i => pathCmd lineIndex (Z.of_nat i))
           (List.seq 0 (S (Z.to_nat points))).

(** Lines 152-240: [for (lineIndex = 0; lineIndex < NUM_LINES; ...)]. *)
Definition curves : list (list PathCmd) :=
  List.map (fun l => curve (Z.of_nat l)) (List.seq 0 (Z.to_nat NUM_LINES)).
End Points.

(** One animation frame as a function: the new animation state and the
    paths stroked by the frame. *)
Definition drawFrame (st : AnimationState) (dataArray : list Z)
           (width height : Z) : AnimationState * list (list PathCmd) :=
  let st' := updateState st dataArray in
  (st', curves st' dataArray width height).

(** The animation state after a sequence of frames, given the bytes read
    in each. *)
Definition runFrames (frames : list (list Z)) (st : AnimationState)
  : AnimationState :=
  List.fold_left updateState frames st.

(** *** The component: hooks, refs, and the objects they point to *)

(** The four [useState] values (lines 11-14).  [audioContext] and
    [analyser] are [true] when they hold the object [initAudio] created
    and [false] when they are [null]. *)
Record Hooks := mkHooks {
  isListening : bool;
  error : option string;
  audioContext : bool;
  analyser : bool
}.

Definition initialHooks : Hooks :=
  {| isListening := false; error := None;
     audioContext := false; analyser := false |}.

(** The component and the part of the platform it touches.

    [hooks] are the current hook values, seen by the next render.
    [effectEnv] are the hook values of the render whose closures the
    mount effect holds: the effect has the dependency list [[]] (line 90),
    so it runs after the first render only and its cleanup
    [() => cleanupAudio()] keeps the [cleanupAudio] of that render.
    The refs (lines 18-20 and 30) are shared by all renders. *)
Record World := mkWorld {
  hooks : Hooks;
  effectEnv : Hooks;
  animationRef : option nat;          (* [number | null] *)
  mediaStreamRef : bool;              (* holds the granted stream *)
  sourceRef : bool;                   (* holds the source node *)
  animationState : AnimationState;
  micTracks : list TrackState;        (* tracks of the granted stream *)
  contextState : option ContextState; (* the context, once created *)
  sourceConnected : bool;
  rafPending : list nat;   (* handles of registered frame callbacks *)
  rafNext : nat;           (* the next handle; handles are non-zero *)
  console : list string
}.

(** The world after the first render, before the mount effect runs. *)
Definition mount : World := {|
  hooks := initialHooks;
  effectEnv := initialHooks;
  animationRef := None;
  mediaStreamRef := false;
  sourceRef := false;
  animationState := initialAnimationState;
  micTracks := [];
  contextState := None;
  sourceConnected := false;
  rafPending := [];
  rafNext := 1;
  console := []
|}.

Definition withHooks (h : Hooks) (w : World) : World :=
  mkWorld h (effectEnv w) (animationRef w) (mediaStreamRef w) (sourceRef w)
          (animationState w) (micTracks w) (contextState w)
          (sourceConnected w) (rafPending w) (rafNext w) (console w).

Definition withConsole (c : list string) (w : World) : World :=
  mkWorld (hooks w) (effectEnv w) (animationRef w) (mediaStreamRef w)
          (sourceRef w) (animationState w) (micTracks w) (contextState w)
          (sourceConnected w) (rafPending w) (rafNext w) c.

(** *** The drawing loop (lines 97-245) *)

(** [canvasRef.current] and [canvas.getContext('2d')] as [startDrawing]
    finds them. *)
Record Canvas := mkCanvas {
  canvasPresent : bool;
  context2d : bool
}.

(** Line 120 and lines 131-141: one call of [drawWaveforms] registers
    itself with [requestAnimationFrame], stores the handle and updates
    the animation state from the bytes it reads. *)
Definition drawWaveforms (dataArray : list Z) (w : World) : World :=
  let handle := rafNext w in
  mkWorld (hooks w) (effectEnv w) (Some handle) (mediaStreamRef w)
          (sourceRef w) (updateState (animationState w) dataArray)
          (micTracks w) (contextState w) (sourceConnected w)
          (rafPending w ++ [handle]) (S handle) (console w).

(** Lines 97-102 and 244. *)
Definition startDrawing (canvas : Canvas) (dataArray : list Z) (w : World)
  : World :=
  if negb (canvasPresent canvas) then w
  else if negb (context2d canvas) then w
  else drawWaveforms dataArray w.

(** One display refresh: the platform takes the callbacks registered so
    far and calls each; all of them are [drawWaveforms]. *)
Definition displayRefresh (dataArray : list Z) (w : World) : World :=
  let due := rafPending w in
  let w0 :=
    mkWorld (hooks w) (effectEnv w) (animationRef w) (mediaStreamRef w)
            (sourceRef w) (animationState w) (micTracks w) (contextState w)
            (sourceConnected w) [] (rafNext w) (console w) in
  List.fold_left (fun acc _ => drawWaveforms dataArray acc) due w0.

(** [n] display refreshes, reading [data k] in the [k]-th. *)
Fixpoint refreshes (data : nat -> list Z) (n : nat) (w : World) : World :=
  match n with
  | O => w
  | S n' => displayRefresh (data n') (refreshes data n' w)
  end.

(** [cancelAnimationFrame(handle)]. *)
Definition cancelAnimationFrame (handle : nat) (pending : list nat)
  : list nat :=
  List.filter (fun h => negb (Nat.eqb h handle)) pending.

(** *** [initAudio] (lines 49-84) *)

(** How the [try] block ends: it runs to its end; or [getUserMedia]
    rejects; or the stream is granted and creating the audio context
    throws. *)
Inductive InitOutcome :=
| Granted (tracks : list TrackState)
| Rejected (err : JsError)
| ContextFailed (tracks : list TrackState) (err : JsError).

Definition permissionMessage : string := "请允许访问麦克风以启用音频可视化".
Definition notFoundMessage : string := "未检测到麦克风设备".
Definition genericMessage : string := "音频初始化失败，请检查设备设置".

(** Lines 76-82. *)
Definition errorMessage (err : JsError) : string :=
  if String.eqb (errName err) "NotAllowedError"%string then permissionMessage
  else if String.eqb (errName err) "NotFoundError"%string then notFoundMessage
  else genericMessage.

(** Lines 73-83. *)
Definition catchInit (err : JsError) (w : World) : World :=
  let w1 := withConsole (console w ++ ["麦克风访问错误:"%string]) w in
  withHooks (mkHooks (isListening (hooks w1)) (Some (errorMessage err))
                     (audioContext (hooks w1)) (analyser (hooks w1))) w1.

(** Line 53: [mediaStreamRef.current = stream]. *)
Definition holdStream (tracks : list TrackState) (w : World) : World :=
  mkWorld (hooks w) (effectEnv w) (animationRef w) true (sourceRef w)
          (animationState w) tracks (contextState w) (sourceConnected w)
          (rafPending w) (rafNext w) (console w).

(** Lines 56-71: the context is created, the source is created from the
    stream, connected and stored, and three hooks are set. *)
Definition connectAudio (w : World) : World :=
  mkWorld (mkHooks true (error (hooks w)) true true) (effectEnv w)
          (animationRef w) (mediaStreamRef w) true (animationState w)
          (micTracks w) (Some Running) true (rafPending w) (rafNext w)
          (console w).

Definition initAudio (outcome : InitOutcome) (canvas : Canvas)
           (dataArray : list Z) (w : World) : World :=
  match outcome with
  | Granted tracks =>
      startDrawing canvas dataArray (connectAudio (holdStream tracks w))
  | Rejected err => catchInit err w
  | ContextFailed tracks err => catchInit err (holdStream tracks w)
  end.

(** *** [cleanupAudio] (lines 254-261) and the unmount *)

(** [cleanupAudio] as a closure of a render whose [audioContext] hook
    value is [capturedContext]; the refs are read when it runs. *)
Definition cleanupAudio (capturedContext : bool) (w : World) : World :=
  let pending :=
    match animationRef w with
    | Some (S h) => cancelAnimationFrame (S h) (rafPending w)
    | _ => rafPending w
    end in
  let connected := if sourceRef w then false else sourceConnected w in
  let tracks :=
    if mediaStreamRef w then stopTracks (micTracks w) else micTracks w in
  let ctx :=
    if capturedContext then
      match contextState w with
      | Some _ => Some Closed
      | None => None
      end
    else contextState w in
  mkWorld (hooks w) (effectEnv w) (animationRef w) (mediaStreamRef w)
          (sourceRef w) (animationState w) tracks ctx connected pending
          (rafNext w) (console w).

(** Line 89: the unmount runs the cleanup of the mount effect, that is
    the [cleanupAudio] of the render recorded in [effectEnv]. *)
Definition unmount (w : World) : World :=
  cleanupAudio (audioContext (effectEnv w)) w.

(** *** The rendered output (lines 264-280) *)

Inductive Action := ReloadPage.   (* [window.location.reload()] *)

Inductive View :=
| ErrorView (text : string) (buttonLabel : string) (onClick : Action)
| CanvasView (indicatorActive : bool) (status : string).

Definition render (h : Hooks) : View :=
  if truthyString (error h) then
    ErrorView (match error h with Some e => e | None => EmptyString end)
              "重试"%string ReloadPage
  else
    CanvasView (isListening h)
               (if isListening h then "正在聆听..."%string
                else "初始化中..."%string).

(** The view offers a way to try again. *)
Definition offersRetry (v : View) : bool :=
  match v with
  | ErrorView _ _ ReloadPage => true
  | CanvasView _ _ => false
  end.

End AudioVisualizer.

(** ** CameraComponent/index.tsx *)
Module CameraComponent.

Definition cameraMessage : string := "无法访问摄像头，请检查权限设置".

(** The component: its hook, its refs, the granted stream, and what it
    has handed to [console.error] and to the [onError] callback. *)
Record World := mkWorld {
  isCameraActive : bool;
  videoElement : bool;           (* [videoRef.current] is an element *)
  videoStreamRef : bool;         (* holds the granted stream *)
  srcObjectBound : bool;         (* [video.srcObject] is the stream *)
  camTracks : list TrackState;   (* tracks of the granted stream *)
  console : list string;
  reported : list string         (* arguments of the [onError] calls *)
}.

(** After the first render: the [video] element is in the page. *)
Definition mount : World := {|
  isCameraActive := false;
  videoElement := true;
  videoStreamRef := false;
  srcObjectBound := false;
  camTracks := [];
  console := [];
  reported := []
|}.

(** How the [try] block of [setupCamera] ends. *)
Inductive SetupOutcome :=
| Granted (tracks : list TrackState)
| Failed (err : JsError).

(** Lines 16-39.  [onloadedmetadata] is only registered here. *)
Definition setupCamera (outcome : SetupOutcome) (w : World) : World :=
  match outcome with
  | Granted tracks =>
      mkWorld (isCameraActive w) (videoElement w) true
              (if videoElement w then true else srcObjectBound w)
              tracks (console w) (reported w)
  | Failed err =>
      mkWorld (isCameraActive w) (videoElement w) (videoStreamRef w)
              (srcObjectBound w) (camTracks w)
              (console w ++ ["摄像头访问错误:"%string])
              (reported w ++ [cameraMessage])
  end.

(** Lines 30-33: the metadata of the bound stream has loaded. *)
Definition onloadedmetadata (w : World) : World :=
  if srcObjectBound w then
    mkWorld true (videoElement w) (videoStreamRef w) (srcObjectBound w)
            (camTracks w) (console w) (reported w)
  else w.

(** Lines 44-49: the cleanup of the effect. *)
Definition cleanup (w : World) : World :=
  if videoStreamRef w then
    mkWorld (isCameraActive w) (videoElement w) (videoStreamRef w)
            (srcObjectBound w) (stopTracks (camTracks w)) (console w)
            (reported w)
  else w.

End CameraComponent.

(** ** App.tsx *)
Module App.

(** One [ipcRenderer.send(channel, ...args)]. *)
Record IpcMessage := mkIpcMessage {
  channel : string;
  args : list string
}.

Record World := mkWorld {
  errorMessage : string;         (* the [useState] of line 8 *)
  ipcSent : list IpcMessage;
  console : list string
}.

Definition mount : World :=
  {| errorMessage := EmptyString; ipcSent := []; console := [] |}.

(** Lines 11-14. *)
Definition ipcHandle (w : World) : World :=
  mkWorld (errorMessage w)
          (ipcSent w ++ [mkIpcMessage "ping"%string []])
          (console w ++ ["IPC message sent"%string]).

(** The [onClick] of the Send IPC button (line 40), [n] times. *)
Fixpoint clicks (n : nat) (w : World) : World :=
  match n with
  | O => w
  | S n' => ipcHandle (clicks n' w)
  end.

(** Lines 28 and 33: the [onError] handed to the children. *)
Definition onError (message : string) (w : World) : World :=
  mkWorld message (ipcSent w) (console w).

End App.

(** ** Vocabulary of the statements *)

(** The fields a frame does not touch. *)
Definition sameResources (w w' : AudioVisualizer.World) : Prop :=
  AudioVisualizer.hooks w' = AudioVisualizer.hooks w
  /\ AudioVisualizer.effectEnv w' = AudioVisualizer.effectEnv w
  /\ AudioVisualizer.mediaStreamRef w' = AudioVisualizer.mediaStreamRef w
  /\ AudioVisualizer.sourceRef w' = AudioVisualizer.sourceRef w
  /\ AudioVisualizer.micTracks w' = AudioVisualizer.micTracks w
  /\ AudioVisualizer.contextState w' = AudioVisualizer.contextState w
  /\ AudioVisualizer.sourceConnected w' = AudioVisualizer.sourceConnected w.

(** The error with which [initAudio] enters its [catch], if it does. *)
Definition initFailure (o : AudioVisualizer.InitOutcome) : option JsError :=
  match o with
  | AudioVisualizer.Granted _ => None
  | AudioVisualizer.Rejected e => Some e
  | AudioVisualizer.ContextFailed _ e => Some e
  end.

(** A silent buffer of the size the analyser has: [fftSize / 2] bins. *)
Definition silence : list Z := List.repeat 0%Z 1024.

(** The abscissa of the first point of the first path of a frame. *)
Definition firstX (paths : list (list AudioVisualizer.PathCmd)) : option R :=
  match hd_error paths with
  | Some c => option_map AudioVisualizer.cmdX (hd_error c)
  | None => None
  end.

(** One event in the life of the camera component: the effect runs
    [setupCamera], the video element fires [onloadedmetadata], or the
    cleanup of the effect runs. *)
Inductive cameraStep : CameraComponent.World -> CameraComponent.World -> Prop :=
| StepSetup (o : CameraComponent.SetupOutcome) (w : CameraComponent.World) :
    cameraStep w (CameraComponent.setupCamera o w)
| StepLoaded (w : CameraComponent.World) :
    cameraStep w (CameraComponent.onloadedmetadata w)
| StepCleanup (w : CameraComponent.World) :
    cameraStep w (CameraComponent.cleanup w).

(** The worlds the camera component can be in. *)
Inductive cameraReachable : CameraComponent.World -> Prop :=
| ReachMount : cameraReachable CameraComponent.mount
| ReachStep (w w' : CameraComponent.World) :
    cameraReachable w -> cameraStep w w' -> cameraReachable w'.

(** ** The whole program and the variables it keeps *)

(** The application: the shell with its two components. *)
Record Mirror := mkMirror {
  appWorld : App.World;
  cameraWorld : CameraComponent.World;
  audioWorld : AudioVisualizer.World
}.





(** The variables the components keep in [useState] and [useRef], the refs
    to the canvas and video elements apart: App.tsx line 8;
    CameraComponent lines 10 and 12; AudioVisualizer lines 11-14, 18-20
    and the eight fields of lines 30-39. *)
Inductive StateVar :=
| VErrorMessage
| VIsCameraActive | VVideoStreamRef
| VIsListening | VError | VAudioContext | VAnalyser
| VAnimationRef | VMediaStreamRef | VSourceRef
| VPhase | VBaseAmplitude | VRotationAngle | VRotationSpeed
| VBreathPhase | VBreathSpeed | VActive | VTargetAmplitude.

(** Two program states hold the same value in a variable. *)
Definition sameAt (v : StateVar) (p q : Mirror) : Prop :=
  let h := fun r => AudioVisualizer.hooks (audioWorld r) in
  let a := fun r => AudioVisualizer.animationState (audioWorld r) in
  match v with
  | VErrorMessage => App.errorMessage (appWorld p) = App.errorMessage (appWorld q)
  | VIsCameraActive =>
      CameraComponent.isCameraActive (cameraWorld p)
      = CameraComponent.isCameraActive (cameraWorld q)
  | VVideoStreamRef =>
      CameraComponent.videoStreamRef (cameraWorld p)
      = CameraComponent.videoStreamRef (cameraWorld q)
  | VIsListening =>
      AudioVisualizer.isListening (h p) = AudioVisualizer.isListening (h q)
  | VError => AudioVisualizer.error (h p) = AudioVisualizer.error (h q)
  | VAudioContext =>
      AudioVisualizer.audioContext (h p) = AudioVisualizer.audioContext (h q)
  | VAnalyser =>
      AudioVisualizer.analyser (h p) = AudioVisualizer.analyser (h q)
  | VAnimationRef =>
      AudioVisualizer.animationRef (audioWorld p)
      = AudioVisualizer.animationRef (audioWorld q)
  | VMediaStreamRef =>
      AudioVisualizer.mediaStreamRef (audioWorld p)
      = AudioVisualizer.mediaStreamRef (audioWorld q)
  | VSourceRef =>
      AudioVisualizer.sourceRef (audioWorld p) = AudioVisualizer.sourceRef (audioWorld q)
  | VPhase => AudioVisualizer.phase (a p) = AudioVisualizer.phase (a q)
  | VBaseAmplitude =>
      AudioVisualizer.baseAmplitude (a p) = AudioVisualizer.baseAmplitude (a q)
  | VRotationAngle =>
      AudioVisualizer.rotationAngle (a p) = AudioVisualizer.rotationAngle (a q)
  | VRotationSpeed =>
      AudioVisualizer.rotationSpeed (a p) = AudioVisualizer.rotationSpeed (a q)
  | VBreathPhase =>
      AudioVisualizer.breathPhase (a p) = AudioVisualizer.breathPhase (a q)
  | VBreathSpeed =>
      AudioVisualizer.breathSpeed (a p) = AudioVisualizer.breathSpeed (a q)
  | VActive => AudioVisualizer.active (a p) = AudioVisualizer.active (a q)
  | VTargetAmplitude =>
      AudioVisualizer.targetAmplitude (a p)
      = AudioVisualizer.targetAmplitude (a q)
  end.





(** A variable holds different values in two program states; rationals
    are compared as numbers. *)
Definition differsAt (v : StateVar) (p q : Mirror) : Prop :=
  let a := fun r => AudioVisualizer.animationState (audioWorld r) in
  match v with
  | VPhase => ~ AudioVisualizer.phase (a p) == AudioVisualizer.phase (a q)
  | VBaseAmplitude =>
      ~ AudioVisualizer.baseAmplitude (a p)
        == AudioVisualizer.baseAmplitude (a q)
  | VRotationAngle =>
      ~ AudioVisualizer.rotationAngle (a p)
        == AudioVisualizer.rotationAngle (a q)
  | VRotationSpeed =>
      ~ AudioVisualizer.rotationSpeed (a p)
        == AudioVisualizer.rotationSpeed (a q)
  | VBreathPhase =>
      ~ AudioVisualizer.breathPhase (a p)
        == AudioVisualizer.breathPhase (a q)
  | VBreathSpeed =>
      ~ AudioVisualizer.breathSpeed (a p)
        == AudioVisualizer.breathSpeed (a q)
  | VTargetAmplitude =>
      ~ AudioVisualizer.targetAmplitude (a p)
        == AudioVisualizer.targetAmplitude (a q)
  | _ => ~ sameAt v p q
  end.


(** * Properties *)

(** ** App: the Send IPC button *)

(** C7. Each click of the Send IPC button sends exactly one message, on
    the channel ['ping'], with no payload: after [n] clicks the messages
    sent are those sent before followed by [n] copies of the bare ping. *)
Theorem ipc_clicks_send_bare_pings :
  forall (n : nat) (w : App.World),
    App.ipcSent (App.clicks n w)
    = App.ipcSent w ++ List.repeat (App.mkIpcMessage "ping" []) n.
Proof.
  induction n as [|n IH]; intro w; simpl.
  - now rewrite app_nil_r.
  - rewrite IH, <- app_assoc. f_equal.
    clear IH. induction n as [|n IHn]; simpl; [reflexivity|].
    now rewrite IHn.
Qed.

(** ** CameraComponent *)

(** C6. Whatever makes the camera setup fail, the component hands the same
    single message to [onError], once, and does nothing else to recover:
    the hook, the refs and the tracks are as before. *)
Theorem camera_failure_single_message :
  forall (err : JsError) (w : CameraComponent.World),
    let w' := CameraComponent.setupCamera (CameraComponent.Failed err) w in
    CameraComponent.reported w'
      = CameraComponent.reported w ++ [CameraComponent.cameraMessage]
    /\ CameraComponent.isCameraActive w' = CameraComponent.isCameraActive w
    /\ CameraComponent.videoStreamRef w' = CameraComponent.videoStreamRef w
    /\ CameraComponent.srcObjectBound w' = CameraComponent.srcObjectBound w
    /\ CameraComponent.camTracks w' = CameraComponent.camTracks w
    /\ forall err2 : JsError,
         CameraComponent.reported
           (CameraComponent.setupCamera (CameraComponent.Failed err2) w)
         = CameraComponent.reported w'.
Proof.
  intros err w; cbn; repeat split; reflexivity.
Qed.

(** The cleanup of the camera effect ends every track of a stream that was
    granted before the unmount. *)
Lemma camera_cleanup_ends_tracks :
  forall (tracks : list TrackState) (w : CameraComponent.World),
    CameraComponent.camTracks
      (CameraComponent.cleanup
         (CameraComponent.setupCamera (CameraComponent.Granted tracks) w))
    = stopTracks tracks.
Proof. intros tracks w; reflexivity. Qed.

Lemma stopTracks_all_ended :
  forall tracks : list TrackState,
    Forall (fun t => t = Ended) (stopTracks tracks).
Proof.
  induction tracks as [|t ts IH]; simpl; constructor; auto.
Qed.

(** ** AudioVisualizer: the drawing loop *)


Lemma sameResources_trans :
  forall w1 w2 w3,
    sameResources w1 w2 -> sameResources w2 w3 -> sameResources w1 w3.
Proof.
  unfold sameResources; intros w1 w2 w3 H12 H23.
  decompose [and] H12; decompose [and] H23; repeat split; congruence.
Qed.


(** A refresh with one registered callback runs it once: again one
    callback is registered, with the next handle. *)
Lemma displayRefresh_one_pending :
  forall (dataArray : list Z) (w : AudioVisualizer.World) (h : nat),
    AudioVisualizer.rafPending w = [h] ->
    let w' := AudioVisualizer.displayRefresh dataArray w in
    AudioVisualizer.rafPending w' = [AudioVisualizer.rafNext w]
    /\ AudioVisualizer.animationRef w' = Some (AudioVisualizer.rafNext w)
    /\ AudioVisualizer.rafNext w' = S (AudioVisualizer.rafNext w)
    /\ AudioVisualizer.animationState w'
       = AudioVisualizer.updateState (AudioVisualizer.animationState w) dataArray
    /\ sameResources w w'.
Proof.
  intros dataArray w h Hp; unfold AudioVisualizer.displayRefresh.
  rewrite Hp; cbn; repeat split.
Qed.

(** The loop once started: after [n] refreshes exactly one callback is
    registered, its handle is the one stored in [animationRef], and the
    animation state is the one reached by [n + 1] frame updates. *)
Lemma loop_after_refreshes :
  forall (data0 : list Z) (data : nat -> list Z) (n : nat)
         (w0 : AudioVisualizer.World),
    AudioVisualizer.rafPending w0 = [] ->
    let w := AudioVisualizer.refreshes data n
               (AudioVisualizer.drawWaveforms data0 w0) in
    AudioVisualizer.rafPending w = [(AudioVisualizer.rafNext w0 + n)%nat]
    /\ AudioVisualizer.animationRef w = Some (AudioVisualizer.rafNext w0 + n)%nat
    /\ AudioVisualizer.rafNext w = S (AudioVisualizer.rafNext w0 + n)%nat
    /\ AudioVisualizer.animationState w
       = AudioVisualizer.runFrames
           (data0 :: List.map data (List.seq 0 n))
           (AudioVisualizer.animationState w0)
    /\ sameResources w0 w.
Proof.
  intros data0 data n w0 H0.
  induction n as [|n IH].
  - cbn. rewrite H0, Nat.add_0_r. repeat split.
  - destruct IH as (Hp & Ha & Hn & Hs & Hr).
    cbn [AudioVisualizer.refreshes].
    destruct (displayRefresh_one_pending (data n) _ _ Hp)
      as (Hp' & Ha' & Hn' & Hs' & Hr').
    rewrite Hn in Hp', Ha', Hn'.
    replace (AudioVisualizer.rafNext w0 + S n)%nat
      with (S (AudioVisualizer.rafNext w0 + n)%nat) by lia.
    split; [exact Hp'|]. split; [exact Ha'|]. split; [exact Hn'|]. split.
    + rewrite Hs', Hs. unfold AudioVisualizer.runFrames.
      rewrite seq_S, map_app. cbn [List.map].
      change (data0 :: List.map data (List.seq 0 n) ++ [data (0 + n)%nat])
        with ((data0 :: List.map data (List.seq 0 n)) ++ [data n]).
      now rewrite fold_left_app.
    + apply sameResources_trans with (1 := Hr). exact Hr'.
Qed.

(** The phase after a run of frames counts the frames. *)
Lemma runFrames_phase :
  forall (frames : list (list Z)) (st : AudioVisualizer.AnimationState),
    AudioVisualizer.phase (AudioVisualizer.runFrames frames st)
    == AudioVisualizer.phase st
       + inject_Z (Z.of_nat (List.length frames)) * (1 # 100).
Proof.
  unfold AudioVisualizer.runFrames.
  induction frames as [|d ds IH]; intro st.
  - cbn. ring.
  - cbn [fold_left List.length]. rewrite IH. cbn [AudioVisualizer.updateState AudioVisualizer.phase].
    rewrite Nat2Z.inj_succ. unfold Z.succ. rewrite inject_Z_plus. ring.
Qed.

(** Every callback run by a refresh registers one: the number of pending
    callbacks is the same after the refresh. *)
Lemma displayRefresh_keeps_count :
  forall (dataArray : list Z) (w : AudioVisualizer.World),
    List.length (AudioVisualizer.rafPending
                   (AudioVisualizer.displayRefresh dataArray w))
    = List.length (AudioVisualizer.rafPending w).
Proof.
  intros dataArray w. unfold AudioVisualizer.displayRefresh.
  set (w0 := AudioVisualizer.mkWorld _ _ _ _ _ _ _ _ _ _ _ _).
  assert (H : forall due w1,
             List.length
               (AudioVisualizer.rafPending
                  (fold_left
                     (fun acc (_ : nat) =>
                        AudioVisualizer.drawWaveforms dataArray acc) due w1))
             = (List.length (AudioVisualizer.rafPending w1)
                + List.length due)%nat).
  { induction due as [|h due IH]; intro w1; cbn [fold_left List.length].
    - lia.
    - rewrite IH. cbn. rewrite length_app. cbn. lia. }
  rewrite H. reflexivity.
Qed.

Lemma refreshes_keep_count :
  forall (data : nat -> list Z) (n : nat) (w : AudioVisualizer.World),
    List.length (AudioVisualizer.rafPending
                   (AudioVisualizer.refreshes data n w))
    = List.length (AudioVisualizer.rafPending w).
Proof.
  intros data n w; induction n as [|n IH]; cbn [AudioVisualizer.refreshes].
  - reflexivity.
  - now rewrite displayRefresh_keeps_count.
Qed.

(** C5. Drawing is re-scheduled at every display refresh.  With the canvas
    and its 2D context present when drawing starts, every call of
    [drawWaveforms] registers exactly one callback for itself; after any
    number [n] of refreshes the callback of the loop is still pending, so
    the loop does not stop by itself.  In the component, where nothing is
    registered before [initAudio], exactly one callback is pending after
    every refresh and [n + 1] frames have run. *)
Theorem drawing_rescheduled_every_refresh :
  forall (canvas : AudioVisualizer.Canvas) (tracks : list TrackState)
         (data0 : list Z) (data : nat -> list Z) (n : nat)
         (w0 : AudioVisualizer.World),
    AudioVisualizer.canvasPresent canvas = true ->
    AudioVisualizer.context2d canvas = true ->
    (forall d w1,
        AudioVisualizer.rafPending (AudioVisualizer.drawWaveforms d w1)
        = AudioVisualizer.rafPending w1 ++ [AudioVisualizer.rafNext w1])
    /\ List.length
         (AudioVisualizer.rafPending
            (AudioVisualizer.refreshes data n
               (AudioVisualizer.startDrawing canvas data0 w0)))
       = S (List.length (AudioVisualizer.rafPending w0))
    /\ let w := AudioVisualizer.refreshes data n
                  (AudioVisualizer.initAudio (AudioVisualizer.Granted tracks)
                     canvas data0 AudioVisualizer.mount) in
       AudioVisualizer.rafPending w = [S n]
       /\ AudioVisualizer.animationRef w = Some (S n)
       /\ AudioVisualizer.phase (AudioVisualizer.animationState w)
          == inject_Z (Z.of_nat (S n)) * (1 # 100).
Proof.
  intros canvas tracks data0 data n w0 Hc Hx.
  split; [reflexivity|]. split.
  - rewrite refreshes_keep_count.
    unfold AudioVisualizer.startDrawing; rewrite Hc, Hx; cbn [negb].
    cbn. rewrite length_app. cbn. lia.
  - cbv zeta. unfold AudioVisualizer.initAudio, AudioVisualizer.startDrawing.
    rewrite Hc, Hx; cbn [negb].
    destruct (loop_after_refreshes data0 data n
                (AudioVisualizer.connectAudio
                   (AudioVisualizer.holdStream tracks AudioVisualizer.mount))
                eq_refl) as (Hp & Ha & _ & Hs & _).
    split; [exact Hp|]. split; [exact Ha|].
    rewrite Hs, runFrames_phase.
    cbn [List.length]. rewrite length_map, length_seq.
    cbn [AudioVisualizer.connectAudio AudioVisualizer.holdStream
         AudioVisualizer.animationState AudioVisualizer.mount
         AudioVisualizer.initialAnimationState AudioVisualizer.phase].
    ring.
Qed.

Lemma drawing_rescheduled_every_refresh_witness :
  AudioVisualizer.rafPending
    (AudioVisualizer.refreshes (fun _ => silence) 3
       (AudioVisualizer.initAudio (AudioVisualizer.Granted [Live])
          (AudioVisualizer.mkCanvas true true) silence
          AudioVisualizer.mount))
  = [4%nat].
Proof.
  exact (proj1 (proj2 (proj2
    (drawing_rescheduled_every_refresh
       (AudioVisualizer.mkCanvas true true) [Live] silence
       (fun _ => silence) 3 AudioVisualizer.mount
       eq_refl eq_refl)))).
Defined.

(** ** AudioVisualizer: release of the resources on unmount *)

(** The world in which the loop is started by a successful [initAudio]. *)
Lemma initAudio_granted_started :
  forall (tracks : list TrackState) (data0 : list Z),
    AudioVisualizer.initAudio (AudioVisualizer.Granted tracks)
      (AudioVisualizer.mkCanvas true true) data0 AudioVisualizer.mount
    = AudioVisualizer.drawWaveforms data0
        (AudioVisualizer.connectAudio
           (AudioVisualizer.holdStream tracks AudioVisualizer.mount)).
Proof. reflexivity. Qed.

Lemma cancel_only_pending :
  forall h : nat, AudioVisualizer.cancelAnimationFrame h [h] = [].
Proof.
  intro h; unfold AudioVisualizer.cancelAnimationFrame; cbn.
  now rewrite Nat.eqb_refl.
Qed.

(** What the unmount does after a successful start and [n] refreshes, for
    either value of the [audioContext] captured by the cleanup closure. *)
Lemma cleanup_after_start :
  forall (captured : bool) (tracks : list TrackState) (data0 : list Z)
         (data : nat -> list Z) (n : nat),
    let w := AudioVisualizer.cleanupAudio captured
               (AudioVisualizer.refreshes data n
                  (AudioVisualizer.initAudio (AudioVisualizer.Granted tracks)
                     (AudioVisualizer.mkCanvas true true) data0
                     AudioVisualizer.mount)) in
    AudioVisualizer.rafPending w = []
    /\ AudioVisualizer.sourceConnected w = false
    /\ AudioVisualizer.micTracks w = stopTracks tracks
    /\ AudioVisualizer.contextState w
       = Some (if captured then Closed else Running)
    /\ AudioVisualizer.audioContext (AudioVisualizer.hooks w) = true
    /\ AudioVisualizer.audioContext (AudioVisualizer.effectEnv w) = false.
Proof.
  intros captured tracks data0 data n.
  rewrite initAudio_granted_started.
  set (w0 := AudioVisualizer.connectAudio
               (AudioVisualizer.holdStream tracks AudioVisualizer.mount)).
  destruct (loop_after_refreshes data0 data n w0 eq_refl)
    as (Hp & Ha & _ & _ & Hh & He & Hm & Hs & Ht & Hc & Hsc).
  cbv zeta. unfold AudioVisualizer.cleanupAudio; cbn.
  rewrite Hp, Ha, Hm, Hs, Ht, Hc, Hh, He.
  change (AudioVisualizer.rafNext w0 + n)%nat with (S n).
  cbv beta iota. rewrite cancel_only_pending.
  destruct captured; cbn; repeat split.
Qed.

(** C3. On unmount the camera cleanup ends every track of the granted
    camera stream, and the audio cleanup cancels the pending frame,
    disconnects the source and ends every microphone track; but the audio
    context it created is still running: the cleanup kept by the mount
    effect is the one of the first render, where [audioContext] is [null],
    although the current hook value holds the context. *)
Theorem unmount_leaves_audio_context_running :
  forall (tracks camera : list TrackState) (data0 : list Z)
         (data : nat -> list Z) (n : nat),
    let w := AudioVisualizer.unmount
               (AudioVisualizer.refreshes data n
                  (AudioVisualizer.initAudio (AudioVisualizer.Granted tracks)
                     (AudioVisualizer.mkCanvas true true) data0
                     AudioVisualizer.mount)) in
    CameraComponent.camTracks
      (CameraComponent.cleanup
         (CameraComponent.setupCamera (CameraComponent.Granted camera)
            CameraComponent.mount))
    = stopTracks camera
    /\ AudioVisualizer.rafPending w = []
    /\ AudioVisualizer.sourceConnected w = false
    /\ AudioVisualizer.micTracks w = stopTracks tracks
    /\ AudioVisualizer.audioContext (AudioVisualizer.hooks w) = true
    /\ AudioVisualizer.contextState w = Some Running.
Proof.
  intros tracks camera data0 data n.
  split; [reflexivity|].
  unfold AudioVisualizer.unmount.
  set (w1 := AudioVisualizer.refreshes data n _).
  assert (He : AudioVisualizer.audioContext (AudioVisualizer.effectEnv w1)
               = false).
  { subst w1. rewrite initAudio_granted_started.
    destruct (loop_after_refreshes data0 data n
                (AudioVisualizer.connectAudio
                   (AudioVisualizer.holdStream tracks AudioVisualizer.mount))
                eq_refl) as (_ & _ & _ & _ & _ & He & _).
    now rewrite He. }
  cbv zeta. rewrite He. subst w1.
  destruct (cleanup_after_start false tracks data0 data n)
    as (Hp & Hs & Ht & Hc & Hh & _).
  repeat split; assumption.
Qed.

(** The same cleanup, had it read the current value of the hook, closes
    the context. *)
Lemma cleanup_with_current_hook_closes :
  forall (tracks : list TrackState) (data0 : list Z)
         (data : nat -> list Z) (n : nat),
    let w1 := AudioVisualizer.refreshes data n
                (AudioVisualizer.initAudio (AudioVisualizer.Granted tracks)
                   (AudioVisualizer.mkCanvas true true) data0
                   AudioVisualizer.mount) in
    AudioVisualizer.contextState
      (AudioVisualizer.cleanupAudio
         (AudioVisualizer.audioContext (AudioVisualizer.hooks w1)) w1)
    = Some Closed.
Proof.
  intros tracks data0 data n. cbv zeta.
  set (w1 := AudioVisualizer.refreshes data n _).
  assert (Hh : AudioVisualizer.audioContext (AudioVisualizer.hooks w1) = true).
  { subst w1. rewrite initAudio_granted_started.
    destruct (loop_after_refreshes data0 data n
                (AudioVisualizer.connectAudio
                   (AudioVisualizer.holdStream tracks AudioVisualizer.mount))
                eq_refl) as (_ & _ & _ & _ & Hh & _).
    now rewrite Hh. }
  rewrite Hh. subst w1.
  now destruct (cleanup_after_start true tracks data0 data n)
    as (_ & _ & _ & Hc & _).
Qed.

(** ** AudioVisualizer: errors shown to the user *)

Lemma errorMessage_cases :
  forall err : JsError,
    (errName err = "NotAllowedError"%string
     /\ AudioVisualizer.errorMessage err = AudioVisualizer.permissionMessage)
    \/ (errName err = "NotFoundError"%string
        /\ AudioVisualizer.errorMessage err = AudioVisualizer.notFoundMessage)
    \/ (errName err <> "NotAllowedError"%string
        /\ errName err <> "NotFoundError"%string
        /\ AudioVisualizer.errorMessage err = AudioVisualizer.genericMessage).
Proof.
  intro err; unfold AudioVisualizer.errorMessage.
  destruct (String.eqb_spec (errName err) "NotAllowedError") as [Ha|Ha].
  - left; split; [exact Ha | reflexivity].
  - destruct (String.eqb_spec (errName err) "NotFoundError") as [Hf|Hf].
    + right; left; split; [exact Hf | reflexivity].
    + right; right; repeat split; assumption.
Qed.

(** C1, as stated, fails: when [getUserMedia] rejects with a
    [NotReadableError] the message shown is neither the permission string
    nor the device-not-found string, and the view offers a retry button. *)
Lemma mic_error_outside_two_strings :
  let w := AudioVisualizer.initAudio
             (AudioVisualizer.Rejected (mkJsError "NotReadableError"))
             (AudioVisualizer.mkCanvas true true) silence
             AudioVisualizer.mount in
  ~ ((AudioVisualizer.error (AudioVisualizer.hooks w)
        = Some AudioVisualizer.permissionMessage
      \/ AudioVisualizer.error (AudioVisualizer.hooks w)
        = Some AudioVisualizer.notFoundMessage)
     /\ AudioVisualizer.offersRetry
          (AudioVisualizer.render (AudioVisualizer.hooks w)) = false).
Proof.
  cbn. intros [_ H]. discriminate H.
Qed.

(** C1, amended. Every failure of the microphone initialisation shows one
    of three strings: the permission string for a [NotAllowedError], the
    device-not-found string for a [NotFoundError], and a generic
    initialisation-failed string for every other error.  The view then
    shows that string with a retry button that reloads the page; nothing
    is scheduled or released by the failure itself. *)
Theorem mic_error_three_strings_and_reload :
  forall (o : AudioVisualizer.InitOutcome) (err : JsError)
         (canvas : AudioVisualizer.Canvas) (dataArray : list Z)
         (w : AudioVisualizer.World),
    initFailure o = Some err ->
    let w' := AudioVisualizer.initAudio o canvas dataArray w in
    AudioVisualizer.error (AudioVisualizer.hooks w')
      = Some (AudioVisualizer.errorMessage err)
    /\ ((errName err = "NotAllowedError"%string
         /\ AudioVisualizer.errorMessage err
            = AudioVisualizer.permissionMessage)
        \/ (errName err = "NotFoundError"%string
            /\ AudioVisualizer.errorMessage err
               = AudioVisualizer.notFoundMessage)
        \/ (errName err <> "NotAllowedError"%string
            /\ errName err <> "NotFoundError"%string
            /\ AudioVisualizer.errorMessage err
               = AudioVisualizer.genericMessage))
    /\ AudioVisualizer.render (AudioVisualizer.hooks w')
       = AudioVisualizer.ErrorView (AudioVisualizer.errorMessage err)
           "重试" AudioVisualizer.ReloadPage
    /\ AudioVisualizer.offersRetry
         (AudioVisualizer.render (AudioVisualizer.hooks w')) = true
    /\ AudioVisualizer.rafPending w' = AudioVisualizer.rafPending w
    /\ AudioVisualizer.isListening (AudioVisualizer.hooks w')
       = AudioVisualizer.isListening (AudioVisualizer.hooks w).
Proof.
  intros o err canvas dataArray w Ho.
  assert (Hr : AudioVisualizer.render
                 (AudioVisualizer.mkHooks
                    (AudioVisualizer.isListening (AudioVisualizer.hooks w))
                    (Some (AudioVisualizer.errorMessage err))
                    (AudioVisualizer.audioContext (AudioVisualizer.hooks w))
                    (AudioVisualizer.analyser (AudioVisualizer.hooks w)))
               = AudioVisualizer.ErrorView (AudioVisualizer.errorMessage err)
                   "重试" AudioVisualizer.ReloadPage).
  { unfold AudioVisualizer.render; cbn.
    destruct (errorMessage_cases err) as [[_ E]|[[_ E]|(_ & _ & E)]];
      rewrite E; reflexivity. }
  destruct o as [tracks|e|tracks e]; cbn in Ho; try discriminate Ho;
    injection Ho as ->; cbn; rewrite Hr;
    (split; [reflexivity|]);
    (split; [exact (errorMessage_cases err)|]);
    repeat split.
Qed.

Lemma mic_error_three_strings_and_reload_witness :
  AudioVisualizer.error
    (AudioVisualizer.hooks
       (AudioVisualizer.initAudio
          (AudioVisualizer.Rejected (mkJsError "NotFoundError"))
          (AudioVisualizer.mkCanvas true true) silence
          AudioVisualizer.mount))
  = Some (AudioVisualizer.errorMessage (mkJsError "NotFoundError")).
Proof.
  exact (proj1
    (mic_error_three_strings_and_reload
       (AudioVisualizer.Rejected (mkJsError "NotFoundError"))
       (mkJsError "NotFoundError")
       (AudioVisualizer.mkCanvas true true) silence AudioVisualizer.mount
       eq_refl)).
Defined.

(** At that input both halves of the claim fail, each on its own. *)
Lemma mic_error_generic_message_shown :
  let w := AudioVisualizer.initAudio
             (AudioVisualizer.Rejected (mkJsError "NotReadableError"))
             (AudioVisualizer.mkCanvas true true) silence
             AudioVisualizer.mount in
  AudioVisualizer.error (AudioVisualizer.hooks w)
    = Some AudioVisualizer.genericMessage
  /\ AudioVisualizer.genericMessage <> AudioVisualizer.permissionMessage
  /\ AudioVisualizer.genericMessage <> AudioVisualizer.notFoundMessage
  /\ AudioVisualizer.offersRetry
       (AudioVisualizer.render (AudioVisualizer.hooks w)) = true.
Proof.
  cbn. repeat split; discriminate.
Qed.

(** ** AudioVisualizer: what a frame mutates *)

(** The two speeds are never written. *)
Lemma runFrames_speeds :
  forall (frames : list (list Z)) (st : AudioVisualizer.AnimationState),
    AudioVisualizer.breathSpeed (AudioVisualizer.runFrames frames st)
      = AudioVisualizer.breathSpeed st
    /\ AudioVisualizer.rotationSpeed (AudioVisualizer.runFrames frames st)
      = AudioVisualizer.rotationSpeed st.
Proof.
  unfold AudioVisualizer.runFrames.
  induction frames as [|d ds IH]; intro st; cbn [fold_left].
  - split; reflexivity.
  - destruct (IH (AudioVisualizer.updateState st d)) as [Hb Hr].
    rewrite Hb, Hr; split; reflexivity.
Qed.

(** The breath phase and the rotation angle advance by their speed in
    every frame. *)
Lemma runFrames_breath_rotation :
  forall (frames : list (list Z)) (st : AudioVisualizer.AnimationState),
    AudioVisualizer.breathPhase (AudioVisualizer.runFrames frames st)
      == AudioVisualizer.breathPhase st
         + inject_Z (Z.of_nat (List.length frames))
           * AudioVisualizer.breathSpeed st
    /\ AudioVisualizer.rotationAngle (AudioVisualizer.runFrames frames st)
      == AudioVisualizer.rotationAngle st
         + inject_Z (Z.of_nat (List.length frames))
           * AudioVisualizer.rotationSpeed st.
Proof.
  unfold AudioVisualizer.runFrames.
  induction frames as [|d ds IH]; intro st.
  - cbn; split; ring.
  - cbn [fold_left List.length].
    destruct (IH (AudioVisualizer.updateState st d)) as [Hb Hr].
    rewrite Hb, Hr.
    cbn [AudioVisualizer.updateState AudioVisualizer.breathPhase
         AudioVisualizer.breathSpeed AudioVisualizer.rotationAngle
         AudioVisualizer.rotationSpeed].
    rewrite Nat2Z.inj_succ; unfold Z.succ; rewrite inject_Z_plus.
    split; ring.
Qed.


(** What one frame writes in the animation record: the phase, the
    base amplitude, the rotation angle, the breath phase, the active flag
    and the target amplitude, and leaves only the two speeds as they were;
    from the initial record the breath phase and the rotation angle after
    [n] frames are [20 * n].  Of the hooks a successful [initAudio] writes
    the audio context and the analyser besides is-listening. *)
Lemma frame_mutation_inventory :
  forall (st : AudioVisualizer.AnimationState) (dataArray : list Z)
         (frames : list (list Z)) (w : AudioVisualizer.World),
    let st' := AudioVisualizer.updateState st dataArray in
    let avg := AudioVisualizer.average dataArray in
    (AudioVisualizer.rotationSpeed st' = AudioVisualizer.rotationSpeed st
     /\ AudioVisualizer.breathSpeed st' = AudioVisualizer.breathSpeed st)
    /\ (AudioVisualizer.phase st' = AudioVisualizer.phase st + (1 # 100)
        /\ AudioVisualizer.breathPhase st'
           = AudioVisualizer.breathPhase st + AudioVisualizer.breathSpeed st
        /\ AudioVisualizer.rotationAngle st'
           = AudioVisualizer.rotationAngle st
             + AudioVisualizer.rotationSpeed st
        /\ AudioVisualizer.active st' = AudioVisualizer.isActive avg
        /\ AudioVisualizer.targetAmplitude st'
           = AudioVisualizer.nextTargetAmplitude avg
        /\ AudioVisualizer.baseAmplitude st'
           = AudioVisualizer.baseAmplitude st
             + (AudioVisualizer.nextTargetAmplitude avg
                - AudioVisualizer.baseAmplitude st) * (1 # 10))
    /\ (let n := inject_Z (Z.of_nat (List.length frames)) in
        let stn := AudioVisualizer.runFrames frames
                     AudioVisualizer.initialAnimationState in
        AudioVisualizer.breathPhase stn == 20 * n
        /\ AudioVisualizer.rotationAngle stn == 20 * n
        /\ AudioVisualizer.phase stn == n * (1 # 100))
    /\ AudioVisualizer.hooks (AudioVisualizer.connectAudio w)
       = AudioVisualizer.mkHooks true
           (AudioVisualizer.error (AudioVisualizer.hooks w)) true true.
Proof.
  intros st dataArray frames w; cbv zeta.
  split; [split; reflexivity|].
  split; [repeat split|].
  split; [|reflexivity].
  destruct (runFrames_breath_rotation frames
              AudioVisualizer.initialAnimationState) as [Hb Hr].
  rewrite Hb, Hr, runFrames_phase. cbn. repeat split; ring.
Qed.

(** *** The inventory of the state variables *)







(** A variable that differs is not the same. *)
Lemma differsAt_not_sameAt :
  forall (v : StateVar) (p q : Mirror), differsAt v p q -> ~ sameAt v p q.
Proof.
  intros v p q Hd Hs.
  destruct v; cbn [differsAt sameAt] in *;
    try (exact (Hd Hs)); apply Hd; rewrite Hs; reflexivity.
Qed.



(** ** AudioVisualizer: reads of the frequency bytes *)

(** A read inside the array yields one of its bytes. *)
Lemma readByte_in_range :
  forall (dataArray : list Z) (i : Z),
    (0 <= i < Z.of_nat (List.length dataArray))%Z ->
    exists b, readByte dataArray i = Some b /\ In b dataArray.
Proof.
  intros dataArray i Hi. unfold readByte.
  destruct (Z.ltb_spec i 0) as [Hneg|_]; [lia|].
  destruct (nth_error dataArray (Z.to_nat i)) as [b|] eqn:E.
  - exists b; split; [reflexivity|]. eapply nth_error_In; eassumption.
  - apply nth_error_None in E. lia.
Qed.

(** A read outside the array is [undefined]. *)
Lemma readByte_out_of_range :
  forall (dataArray : list Z) (i : Z),
    (i < 0 \/ Z.of_nat (List.length dataArray) <= i)%Z ->
    readByte dataArray i = None.
Proof.
  intros dataArray i Hi. unfold readByte.
  destruct (Z.ltb_spec i 0) as [Hneg|Hpos]; [reflexivity|].
  apply nth_error_None. lia.
Qed.

(** A summing loop whose reads all fall inside the array ends with a
    number; with bytes of at most [hi] each it adds at most [hi] per read. *)
Lemma sumLoop_in_range :
  forall (dataArray : list Z) (n : nat) (lo acc : Z),
    (0 <= lo)%Z ->
    (lo + Z.of_nat n <= Z.of_nat (List.length dataArray))%Z ->
    exists s,
      sumLoop dataArray lo n (Some acc) = Some s
      /\ forall hi, Forall (fun b => (b <= hi)%Z) dataArray ->
                    (s <= acc + hi * Z.of_nat n)%Z.
Proof.
  intros dataArray n; induction n as [|n IH]; intros lo acc Hlo Hhi.
  - exists acc; split; [reflexivity|]. intros; lia.
  - destruct (readByte_in_range dataArray lo) as (b & Hb & Hin); [lia|].
    destruct (IH (lo + 1)%Z (acc + b)%Z) as (s & Hs & Hbound); [lia|lia|].
    exists s; split.
    + cbn [sumLoop]. rewrite Hb. exact Hs.
    + intros hi Hall.
      specialize (Hbound hi Hall).
      rewrite Forall_forall in Hall. specialize (Hall b Hin).
      rewrite Nat2Z.inj_succ. nia.
Qed.

Lemma sumRange_in_range :
  forall (dataArray : list Z) (lo hi : Z),
    (0 <= lo)%Z -> (lo <= hi)%Z ->
    (hi <= Z.of_nat (List.length dataArray))%Z ->
    exists s,
      sumRange dataArray lo hi = Some s
      /\ forall top, Forall (fun b => (b <= top)%Z) dataArray ->
                     (s <= top * (hi - lo))%Z.
Proof.
  intros dataArray lo hi Hlo Hle Hhi. unfold sumRange.
  destruct (sumLoop_in_range dataArray (Z.to_nat (hi - lo)) lo 0 Hlo)
    as (s & Hs & Hb); [lia|].
  exists s; split; [exact Hs|].
  intros top Hall. specialize (Hb top Hall).
  rewrite Z2Nat.id in Hb by lia. lia.
Qed.

(** ** AudioVisualizer: frequency bands *)

Lemma freqRange_bounds :
  forall lineIndex len : Z,
    (0 <= len)%Z ->
    0 <= AudioVisualizer.freqRange lineIndex len
    /\ AudioVisualizer.freqRange lineIndex len <= inject_Z len.
Proof.
  intros lineIndex len Hlen.
  assert (H0 : 0 <= inject_Z len).
  { change 0 with (inject_Z 0). now rewrite <- Zle_Qle. }
  unfold AudioVisualizer.freqRange, Qdiv.
  change (/ 4) with (1 # 4). change (/ 3) with (1 # 3).
  destruct (AudioVisualizer.isMiddleLine lineIndex); split; lra.
Qed.

(** The fractions [lineIndex / NUM_LINES] and [(lineIndex + 1) / NUM_LINES]
    of a line lie in the unit interval, in this order. *)
Lemma line_fractions :
  forall lineIndex : Z,
    (0 <= lineIndex < AudioVisualizer.NUM_LINES)%Z ->
    0 <= inject_Z lineIndex / inject_Z AudioVisualizer.NUM_LINES
    /\ inject_Z lineIndex / inject_Z AudioVisualizer.NUM_LINES
       <= inject_Z (lineIndex + 1) / inject_Z AudioVisualizer.NUM_LINES
    /\ inject_Z (lineIndex + 1) / inject_Z AudioVisualizer.NUM_LINES <= 1.
Proof.
  intros lineIndex [Hlo Hhi]. unfold AudioVisualizer.NUM_LINES in *.
  rewrite inject_Z_plus.
  assert (H0 : 0 <= inject_Z lineIndex).
  { change 0 with (inject_Z 0). now rewrite <- Zle_Qle. }
  assert (H7 : inject_Z lineIndex <= 7).
  { change 7 with (inject_Z 7). rewrite <- Zle_Qle. lia. }
  unfold Qdiv. change (/ inject_Z 8) with (1 # 8).
  change (inject_Z 1) with 1.
  repeat split; lra.
Qed.

(** The band of a line lies inside the buffer. *)
Lemma band_bounds :
  forall lineIndex len : Z,
    (0 <= lineIndex < AudioVisualizer.NUM_LINES)%Z ->
    (0 <= len)%Z ->
    (0 <= AudioVisualizer.binStart lineIndex len)%Z
    /\ (AudioVisualizer.binStart lineIndex len
        <= AudioVisualizer.binEnd lineIndex len)%Z
    /\ (AudioVisualizer.binEnd lineIndex len <= len)%Z.
Proof.
  intros lineIndex len Hline Hlen.
  destruct (line_fractions lineIndex Hline) as (Ha & Hab & Hb).
  destruct (freqRange_bounds lineIndex len Hlen) as (Hr0 & Hr).
  unfold AudioVisualizer.binStart, AudioVisualizer.binEnd.
  set (a := inject_Z lineIndex / inject_Z AudioVisualizer.NUM_LINES) in *.
  set (b := inject_Z (lineIndex + 1) / inject_Z AudioVisualizer.NUM_LINES) in *.
  set (r := AudioVisualizer.freqRange lineIndex len) in *.
  repeat split.
  - rewrite <- (Qfloor_Z 0). apply Qfloor_resp_le.
    change (inject_Z 0) with 0. now apply Qmult_le_0_compat.
  - apply Qfloor_resp_le. now apply Qmult_le_compat_r.
  - rewrite <- (Qfloor_Z len). apply Qfloor_resp_le.
    apply Qle_trans with (1 * r).
    + now apply Qmult_le_compat_r.
    + now rewrite Qmult_1_l.
Qed.

(** C8. For a line [0 <= lineIndex < NUM_LINES] and a buffer of length at
    least one, the band satisfies [0 <= binStart <= binEnd <= bufferLength]
    (the range is at most a third of the buffer), every read of the
    averaging loop is inside the array, the divisor
    [Math.max(1, binEnd - binStart)] is at least one, and the average of
    the band is a number. *)
Theorem band_indexing_in_bounds :
  forall lineIndex len : Z,
    (0 <= lineIndex < AudioVisualizer.NUM_LINES)%Z ->
    (1 <= len)%Z ->
    (0 <= AudioVisualizer.binStart lineIndex len
     <= AudioVisualizer.binEnd lineIndex len)%Z
    /\ (AudioVisualizer.binEnd lineIndex len <= len)%Z
    /\ AudioVisualizer.freqRange lineIndex len <= inject_Z len / 3
    /\ (1 <= AudioVisualizer.binCount lineIndex len)%Z
    /\ ~ inject_Z (AudioVisualizer.binCount lineIndex len) == 0
    /\ forall dataArray : list Z,
         AudioVisualizer.bufferLength dataArray = len ->
         (forall bin : Z,
             (AudioVisualizer.binStart lineIndex len <= bin
              < AudioVisualizer.binEnd lineIndex len)%Z ->
             exists b, readByte dataArray bin = Some b)
         /\ exists s,
             AudioVisualizer.freqSum dataArray lineIndex = Some s
             /\ AudioVisualizer.freqAvg dataArray lineIndex
                = Some (inject_Z s
                        / inject_Z (AudioVisualizer.binCount lineIndex len)).
Proof.
  intros lineIndex len Hline Hlen.
  destruct (band_bounds lineIndex len Hline) as (Hs & Hse & He); [lia|].
  assert (Hcount : (1 <= AudioVisualizer.binCount lineIndex len)%Z).
  { unfold AudioVisualizer.binCount. lia. }
  split; [split; assumption|].
  split; [assumption|].
  split.
  { assert (H0 : 0 <= inject_Z len).
    { change 0 with (inject_Z 0). rewrite <- Zle_Qle. lia. }
    unfold AudioVisualizer.freqRange, Qdiv.
    change (/ 4) with (1 # 4). change (/ 3) with (1 # 3).
    destruct (AudioVisualizer.isMiddleLine lineIndex); lra. }
  split; [assumption|].
  split.
  { change 0 with (inject_Z 0). rewrite inject_Z_injective. lia. }
  intros dataArray Hlength. split.
  - intros bin Hbin.
    destruct (readByte_in_range dataArray bin) as (b & Hb & _).
    + unfold AudioVisualizer.bufferLength in Hlength. lia.
    + now exists b.
  - unfold AudioVisualizer.freqAvg, AudioVisualizer.freqSum.
    rewrite Hlength.
    destruct (sumRange_in_range dataArray
                (AudioVisualizer.binStart lineIndex len)
                (AudioVisualizer.binEnd lineIndex len)) as (s & Hsum & _);
      [assumption | assumption
       | unfold AudioVisualizer.bufferLength in Hlength; lia |].
    exists s. rewrite Hsum. split; reflexivity.
Qed.

Lemma band_indexing_in_bounds_witness :
  (0 <= AudioVisualizer.binStart 7 1024
   <= AudioVisualizer.binEnd 7 1024)%Z
  /\ (AudioVisualizer.binEnd 7 1024 <= 1024)%Z.
Proof.
  assert (H7 : (0 <= 7 < AudioVisualizer.NUM_LINES)%Z)
    by (unfold AudioVisualizer.NUM_LINES; lia).
  assert (Hl : (1 <= 1024)%Z) by lia.
  destruct (band_indexing_in_bounds 7 1024 H7 Hl) as (Ha & Hb & _).
  exact (conj Ha Hb).
Defined.

(** The bands of the eight lines on the buffer of 1024 bins. *)
Example bands_1024 :
  List.map (fun l => (AudioVisualizer.binStart l 1024,
                      AudioVisualizer.binEnd l 1024))
           [0; 1; 2; 3; 4; 5; 6; 7]%Z
  = [(0, 42); (42, 85); (64, 96); (96, 128); (128, 160); (160, 192);
     (192, 224); (298, 341)]%Z.
Proof. vm_compute. reflexivity. Qed.

(** ** AudioVisualizer: the amplitude *)

Lemma Qltb_true : forall a b : Q, Qltb a b = true -> a < b.
Proof.
  intros a b H. unfold Qltb in H. apply negb_true_iff in H.
  apply Qnot_le_lt. intro Hle. apply Qle_bool_iff in Hle. congruence.
Qed.

Lemma Qltb_false : forall a b : Q, Qltb a b = false -> b <= a.
Proof.
  intros a b H. unfold Qltb in H. apply negb_false_iff in H.
  now apply Qle_bool_iff.
Qed.

(** Bytes of at most 255 have an average of at most 255. *)
Lemma average_le_255 :
  forall (dataArray : list Z) (a : Q),
    Forall (fun b => (b <= 255)%Z) dataArray ->
    AudioVisualizer.average dataArray = Some a ->
    a <= 255.
Proof.
  intros dataArray a Hall Havg. unfold AudioVisualizer.average in Havg.
  destruct (sumRange_in_range dataArray 0
              (AudioVisualizer.bufferLength dataArray))
    as (s & Hs & Hbound);
    [lia | unfold AudioVisualizer.bufferLength; lia
     | unfold AudioVisualizer.bufferLength; lia |].
  rewrite Hs in Havg. specialize (Hbound 255%Z Hall).
  destruct (Z.eqb_spec (AudioVisualizer.bufferLength dataArray) 0)
    as [|Hne]; [discriminate|].
  injection Havg as <-.
  assert (Hpos : (0 < AudioVisualizer.bufferLength dataArray)%Z)
    by (unfold AudioVisualizer.bufferLength in *; lia).
  apply Qle_shift_div_r.
  - change 0 with (inject_Z 0). now rewrite <- Zlt_Qlt.
  - change 255 with (inject_Z 255). rewrite <- inject_Z_mult, <- Zle_Qle. lia.
Qed.

(** The target of a frame: idle, or half an average above the threshold;
    the clamp against [MAX_AMPLITUDE] leaves it as it is. *)
Lemma nextTargetAmplitude_bounds :
  forall avg : number,
    (forall a, avg = Some a -> a <= 255) ->
    (15 # 2) <= AudioVisualizer.nextTargetAmplitude avg <= (255 # 2)
    /\ (AudioVisualizer.nextTargetAmplitude avg
          = AudioVisualizer.IDLE_AMPLITUDE
        \/ AudioVisualizer.nextTargetAmplitude avg <= (255 # 2))
    /\ forall a, avg = Some a -> AudioVisualizer.isActive avg = true ->
         Qmin AudioVisualizer.MAX_AMPLITUDE (a * (5 # 10)) == a * (5 # 10)
         /\ AudioVisualizer.nextTargetAmplitude avg
            == a * (5 # 10).
Proof.
  intros avg Hle.
  unfold AudioVisualizer.nextTargetAmplitude, AudioVisualizer.IDLE_AMPLITUDE,
    AudioVisualizer.MAX_AMPLITUDE.
  destruct avg as [a|].
  - specialize (Hle a eq_refl).
    assert (Hmin : Qmin 300 (a * (5 # 10)) == a * (5 # 10))
      by (apply Q.min_r; lra).
    destruct (AudioVisualizer.isActive (Some a)) eqn:Hact.
    + cbn in Hact. apply Qltb_true in Hact.
      unfold AudioVisualizer.NOISE_THRESHOLD in Hact.
      split; [split; lra|]. split; [right; lra|].
      intros a0 Ha0 _. injection Ha0 as <-. split; exact Hmin.
    + split; [split; lra|]. split; [now left|].
      intros a0 _ Habs. discriminate Habs.
  - split; [split; lra|]. split; [now left|].
    intros a0 Ha0. discriminate Ha0.
Qed.

(** One frame keeps the base amplitude between 7.5 and 127.5. *)
Lemma updateState_amplitude :
  forall (st : AudioVisualizer.AnimationState) (dataArray : list Z),
    Forall (fun b => (b <= 255)%Z) dataArray ->
    (15 # 2) <= AudioVisualizer.baseAmplitude st <= (255 # 2) ->
    (15 # 2) <= AudioVisualizer.baseAmplitude
                  (AudioVisualizer.updateState st dataArray) <= (255 # 2).
Proof.
  intros st dataArray Hall Hbase.
  destruct (nextTargetAmplitude_bounds (AudioVisualizer.average dataArray))
    as (Ht & _).
  { intros a Ha. now apply average_le_255 with dataArray. }
  cbn [AudioVisualizer.updateState AudioVisualizer.baseAmplitude].
  set (t := AudioVisualizer.nextTargetAmplitude _) in *.
  set (b := AudioVisualizer.baseAmplitude st) in *.
  split; lra.
Qed.

Lemma runFrames_amplitude :
  forall (frames : list (list Z)) (st : AudioVisualizer.AnimationState),
    Forall (Forall (fun b => (b <= 255)%Z)) frames ->
    (15 # 2) <= AudioVisualizer.baseAmplitude st <= (255 # 2) ->
    (15 # 2) <= AudioVisualizer.baseAmplitude
                  (AudioVisualizer.runFrames frames st) <= (255 # 2).
Proof.
  unfold AudioVisualizer.runFrames.
  induction frames as [|d ds IH]; intros st Hall Hbase.
  - exact Hbase.
  - cbn [fold_left]. inversion Hall as [|? ? Hd Hds]; subst.
    apply IH; [assumption|]. now apply updateState_amplitude.
Qed.

(** C9. With every frequency byte at most 255, in every frame the average
    is at most 255, the target amplitude is the idle amplitude or at most
    127.5, the clamp against [MAX_AMPLITUDE] does not bind, and the base
    amplitude, which starts at 10, stays in [7.5, 127.5] after any
    sequence of frames. *)
Theorem amplitude_stays_bounded :
  forall (frames : list (list Z)) (dataArray : list Z),
    Forall (Forall (fun b => (b <= 255)%Z)) frames ->
    Forall (fun b => (b <= 255)%Z) dataArray ->
    let st := AudioVisualizer.runFrames frames
                AudioVisualizer.initialAnimationState in
    let st' := AudioVisualizer.updateState st dataArray in
    (15 # 2) <= AudioVisualizer.baseAmplitude st <= (255 # 2)
    /\ (15 # 2) <= AudioVisualizer.baseAmplitude st' <= (255 # 2)
    /\ (AudioVisualizer.targetAmplitude st' = AudioVisualizer.IDLE_AMPLITUDE
        \/ AudioVisualizer.targetAmplitude st' <= (255 # 2))
    /\ forall a, AudioVisualizer.average dataArray = Some a ->
         a <= 255
         /\ (AudioVisualizer.active st' = true ->
             Qmin AudioVisualizer.MAX_AMPLITUDE (a * (5 # 10))
               == a * (5 # 10)
             /\ AudioVisualizer.targetAmplitude st' == a * (5 # 10)).
Proof.
  intros frames dataArray Hframes Hdata. cbv zeta.
  assert (Hinit : (15 # 2) <= AudioVisualizer.baseAmplitude
                                AudioVisualizer.initialAnimationState
                  <= (255 # 2)).
  { cbn. unfold AudioVisualizer.IDLE_AMPLITUDE. split; lra. }
  pose proof (runFrames_amplitude frames _ Hframes Hinit) as Hst.
  pose proof (updateState_amplitude _ dataArray Hdata Hst) as Hst'.
  assert (Havg : forall a, AudioVisualizer.average dataArray = Some a ->
                           a <= 255).
  { intros a Ha. now apply average_le_255 with dataArray. }
  destruct (nextTargetAmplitude_bounds _ Havg) as (_ & Htarget & Hclamp).
  split; [exact Hst|]. split; [exact Hst'|]. split; [exact Htarget|].
  intros a Ha. split; [now apply Havg|].
  cbn [AudioVisualizer.updateState AudioVisualizer.active
       AudioVisualizer.targetAmplitude].
  intro Hact. now apply Hclamp.
Qed.

Lemma amplitude_stays_bounded_witness :
  (15 # 2) <= AudioVisualizer.baseAmplitude
                (AudioVisualizer.runFrames [[255; 255]%Z; [0; 0]%Z]
                   AudioVisualizer.initialAnimationState) <= (255 # 2).
Proof.
  refine (proj1 (amplitude_stays_bounded [[255; 255]%Z; [0; 0]%Z]
                   [255; 255]%Z _ _)).
  - repeat constructor; lia.
  - repeat constructor; lia.
Defined.

(** ** AudioVisualizer: the ends of the curves *)

(** For a line of the frame the band average is a number, whatever the
    length of the buffer. *)
Lemma freqAvg_is_number :
  forall (dataArray : list Z) (lineIndex : Z),
    (0 <= lineIndex < AudioVisualizer.NUM_LINES)%Z ->
    exists a, AudioVisualizer.freqAvg dataArray lineIndex = Some a.
Proof.
  intros dataArray lineIndex Hline.
  destruct (band_bounds lineIndex (AudioVisualizer.bufferLength dataArray)
              Hline) as (Hs & Hse & He).
  { unfold AudioVisualizer.bufferLength; lia. }
  unfold AudioVisualizer.freqAvg, AudioVisualizer.freqSum.
  destruct (sumRange_in_range dataArray _ _ Hs Hse He) as (s & Hsum & _).
  rewrite Hsum. eexists; reflexivity.
Qed.

Section CurveEnds.
Local Open Scope R_scope.

Variable st : AudioVisualizer.AnimationState.
Variable dataArray : list Z.
Variable width height : Z.

Lemma tOf_first : AudioVisualizer.tOf 0 = 0.
Proof. unfold AudioVisualizer.tOf, AudioVisualizer.points. lra. Qed.

Lemma tOf_last : AudioVisualizer.tOf AudioVisualizer.points = 1.
Proof. unfold AudioVisualizer.tOf, AudioVisualizer.points. lra. Qed.

(** The edge factor vanishes at both ends. *)
Lemma edgeFactor_ends :
  AudioVisualizer.edgeFactor 0 = 0 /\ AudioVisualizer.edgeFactor 1 = 0.
Proof.
  unfold AudioVisualizer.edgeFactor, AudioVisualizer.Math_pow_half.
  split.
  - replace (4 * 0 * (1 - 0)) with 0 by ring. apply sqrt_0.
  - replace (4 * 1 * (1 - 1)) with 0 by ring. apply sqrt_0.
Qed.

(** Where the edge factor vanishes the waveform value is zero, in the
    active and in the idle branch. *)
Lemma waveform_zero_where_edge_zero :
  forall (lineIndex : Z) (t : R),
    (0 <= lineIndex < AudioVisualizer.NUM_LINES)%Z ->
    AudioVisualizer.edgeFactor t = 0 ->
    AudioVisualizer.amplitude st t = 0
    /\ AudioVisualizer.waveformValue st dataArray lineIndex t = Some 0.
Proof.
  intros lineIndex t Hline Hedge.
  assert (Hamp : AudioVisualizer.amplitude st t = 0).
  { unfold AudioVisualizer.amplitude, AudioVisualizer.enhancedEdgeFactor.
    rewrite Hedge. ring. }
  split; [exact Hamp|].
  unfold AudioVisualizer.waveformValue, AudioVisualizer.freqFactor.
  destruct (AudioVisualizer.active st).
  - destruct (freqAvg_is_number dataArray lineIndex Hline) as (a & Ha).
    rewrite Ha, Hamp. f_equal. ring.
  - rewrite Hamp. f_equal. ring.
Qed.

Lemma pointY_ends :
  forall lineIndex : Z,
    (0 <= lineIndex < AudioVisualizer.NUM_LINES)%Z ->
    AudioVisualizer.pointY st dataArray height lineIndex
      (AudioVisualizer.tOf 0)
    = Some (AudioVisualizer.centerY height)
    /\ AudioVisualizer.pointY st dataArray height lineIndex
         (AudioVisualizer.tOf AudioVisualizer.points)
       = Some (AudioVisualizer.centerY height).
Proof.
  intros lineIndex Hline.
  destruct edgeFactor_ends as [E0 E1].
  rewrite tOf_first, tOf_last. unfold AudioVisualizer.pointY.
  destruct (waveform_zero_where_edge_zero lineIndex 0 Hline E0) as [_ ->].
  destruct (waveform_zero_where_edge_zero lineIndex 1 Hline E1) as [_ ->].
  split; f_equal; ring.
Qed.

(** The first command of a curve is the [moveTo] of [i = 0], the last
    the [lineTo] of [i = 128]. *)
Lemma curve_first_last :
  forall lineIndex : Z,
    hd_error (AudioVisualizer.curve st dataArray width height lineIndex)
    = Some (AudioVisualizer.MoveTo
              (AudioVisualizer.pointX st width (AudioVisualizer.tOf 0))
              (AudioVisualizer.pointY st dataArray height lineIndex
                 (AudioVisualizer.tOf 0)))
    /\ List.last
         (AudioVisualizer.curve st dataArray width height lineIndex)
         (AudioVisualizer.MoveTo 0 None)
       = AudioVisualizer.LineTo
           (AudioVisualizer.pointX st width
              (AudioVisualizer.tOf AudioVisualizer.points))
           (AudioVisualizer.pointY st dataArray height lineIndex
              (AudioVisualizer.tOf AudioVisualizer.points)).
Proof.
  intro lineIndex. unfold AudioVisualizer.curve.
  change (Z.to_nat AudioVisualizer.points) with 128%nat.
  split.
  - change (List.seq 0 129) with (0%nat :: List.seq 1 128).
    reflexivity.
  - rewrite seq_S, map_app. cbn [List.map].
    rewrite last_last. reflexivity.
Qed.
End CurveEnds.

(** C10. In every frame, for every line and in both branches, the first
    sampled point ([i = 0]) and the last ([i = 128]) of the drawn curve
    have the ordinate [centerY]: the edge factor is zero at [t = 0] and at
    [t = 1], so the amplitude and the waveform value are zero there. *)
Theorem curves_anchored_at_center :
  forall (st : AudioVisualizer.AnimationState) (dataArray : list Z)
         (width height : Z),
    AudioVisualizer.edgeFactor (AudioVisualizer.tOf 0) = 0%R
    /\ AudioVisualizer.edgeFactor
         (AudioVisualizer.tOf AudioVisualizer.points) = 0%R
    /\ List.length (snd (AudioVisualizer.drawFrame st dataArray width height))
       = 8%nat
    /\ Forall
         (fun c =>
            (exists x,
                hd_error c
                = Some (AudioVisualizer.MoveTo x
                          (Some (AudioVisualizer.centerY height))))
            /\ (exists x,
                   List.last c (AudioVisualizer.MoveTo 0%R None)
                   = AudioVisualizer.LineTo x
                       (Some (AudioVisualizer.centerY height)))
            /\ List.length c = 129%nat)
         (snd (AudioVisualizer.drawFrame st dataArray width height)).
Proof.
  intros st dataArray width height.
  rewrite tOf_first, tOf_last.
  split; [apply edgeFactor_ends|]. split; [apply edgeFactor_ends|].
  split; [reflexivity|].
  cbn [AudioVisualizer.drawFrame snd]. unfold AudioVisualizer.curves.
  apply Forall_forall. intros c Hc.
  apply in_map_iff in Hc. destruct Hc as (l & <- & Hl).
  apply in_seq in Hl.
  assert (Hline : (0 <= Z.of_nat l < AudioVisualizer.NUM_LINES)%Z).
  { change (Z.to_nat AudioVisualizer.NUM_LINES) with 8%nat in Hl.
    unfold AudioVisualizer.NUM_LINES. lia. }
  destruct (curve_first_last
              (AudioVisualizer.updateState st dataArray) dataArray
              width height (Z.of_nat l)) as [Hfirst Hlast].
  destruct (pointY_ends
              (AudioVisualizer.updateState st dataArray) dataArray
              height (Z.of_nat l) Hline) as [Y0 Y1].
  rewrite Y0 in Hfirst. rewrite Y1 in Hlast.
  split; [eexists; exact Hfirst|]. split; [eexists; exact Hlast|].
  unfold AudioVisualizer.curve. now rewrite length_map, length_seq.
Qed.

(** ** AudioVisualizer: what the curves of a frame depend on *)

Section FrameDependence.
Local Open Scope R_scope.

(** Two terms of Machin's series for [PI / 4] on each side. *)
Lemma PI_between : 313 / 100 < PI < 315 / 100.
Proof.
  destruct (PI_2_3_7_ineq 1) as [Hlow Hhigh].
  unfold sum_f_R0, tg_alt, PI_2_3_7_tg, Ratan_seq in Hlow, Hhigh.
  simpl in Hlow, Hhigh.
  split; lra.
Qed.

(** [sin 40 - sin 20 = 2 * cos 30 * sin 10], and neither [30 - PI / 2]
    nor [10] is a multiple of [PI]. *)
Lemma sin_20_differs_from_sin_40 : sin 20 <> sin 40.
Proof.
  intro Heq.
  assert (E : sin 40 - sin 20 = 0) by lra.
  rewrite form4 in E.
  replace ((40 - 20) / 2) with 10 in E by lra.
  replace ((40 + 20) / 2) with 30 in E by lra.
  destruct PI_between as [Plow Phigh].
  apply Rmult_integral in E. destruct E as [E|E].
  - apply Rmult_integral in E. destruct E as [E|E]; [lra|].
    apply cos_eq_0_0 in E. destruct E as [k Hk].
    assert (Hrange : 9 < IZR k < 10) by (split; nra).
    destruct Hrange as [A B]. apply lt_IZR in A, B. lia.
  - apply sin_eq_0_0 in E. destruct E as [k Hk].
    assert (Hrange : 3 < IZR k < 4) by (split; nra).
    destruct Hrange as [A B]. apply lt_IZR in A, B. lia.
Qed.

(** The first stroked path of a frame is the curve of line 0. *)
Lemma curves_first :
  forall (st : AudioVisualizer.AnimationState) (dataArray : list Z)
         (width height : Z),
    hd_error (AudioVisualizer.curves st dataArray width height)
    = Some (AudioVisualizer.curve st dataArray width height 0).
Proof. reflexivity. Qed.

Lemma firstX_curves :
  forall (st : AudioVisualizer.AnimationState) (dataArray : list Z)
         (width height : Z),
    firstX (AudioVisualizer.curves st dataArray width height)
    = Some (AudioVisualizer.centerX width
            - IZR width * (5 / 10)
              * (1 + sin (Q2R (AudioVisualizer.rotationAngle st))
                     * (3 / 100))).
Proof.
  intros st dataArray width height. unfold firstX.
  rewrite curves_first.
  rewrite (proj1 (curve_first_last st dataArray width height 0)).
  cbn [option_map AudioVisualizer.cmdX].
  unfold AudioVisualizer.pointX, AudioVisualizer.xStretch.
  rewrite tOf_first. f_equal.
  replace (Q2R (AudioVisualizer.rotationAngle st) + 0 * PI * 2)
    with (Q2R (AudioVisualizer.rotationAngle st)) by ring.
  ring.
Qed.
End FrameDependence.

(** C2, as stated, fails: the first two frames on the same silent buffer
    and the same 800 x 600 canvas do not stroke the same paths.  The first
    point of the first path has an abscissa that depends on the rotation
    angle, which is 20 in the first frame and 40 in the second. *)
Lemma equal_input_frames_differ :
  let frame1 := AudioVisualizer.drawFrame
                  AudioVisualizer.initialAnimationState silence 800 600 in
  let frame2 := AudioVisualizer.drawFrame (fst frame1) silence 800 600 in
  snd frame1 <> snd frame2.
Proof.
  cbv zeta. cbn [AudioVisualizer.drawFrame fst snd]. intro Heq.
  apply (f_equal firstX) in Heq.
  rewrite !firstX_curves in Heq.
  cbn [AudioVisualizer.updateState AudioVisualizer.rotationAngle
       AudioVisualizer.rotationSpeed
       AudioVisualizer.initialAnimationState] in Heq.
  replace (Q2R (0 + 20)) with 20%R in Heq
    by (unfold Q2R; cbn; lra).
  replace (Q2R (0 + 20 + 20)) with 40%R in Heq
    by (unfold Q2R; cbn; lra).
  injection Heq as Heq.
  apply sin_20_differs_from_sin_40. lra.
Qed.

(** C2, amended. The paths of a frame are a fixed formula of the frame's
    frequency bytes, the canvas dimensions, the constants and the animation
    record carried over from the frame before, through its phase, base
    amplitude, breath phase, rotation angle and two speeds: two frames
    with equal bytes, equal dimensions and records equal in these six
    fields stroke the same paths and leave the same record, whatever
    active flag and target amplitude they inherit. *)
Theorem frame_fixed_by_input_and_carried_record :
  forall (st1 st2 : AudioVisualizer.AnimationState) (dataArray : list Z)
         (width height : Z),
    AudioVisualizer.phase st1 = AudioVisualizer.phase st2 ->
    AudioVisualizer.baseAmplitude st1 = AudioVisualizer.baseAmplitude st2 ->
    AudioVisualizer.breathPhase st1 = AudioVisualizer.breathPhase st2 ->
    AudioVisualizer.rotationAngle st1 = AudioVisualizer.rotationAngle st2 ->
    AudioVisualizer.breathSpeed st1 = AudioVisualizer.breathSpeed st2 ->
    AudioVisualizer.rotationSpeed st1 = AudioVisualizer.rotationSpeed st2 ->
    AudioVisualizer.drawFrame st1 dataArray width height
    = AudioVisualizer.drawFrame st2 dataArray width height.
Proof.
  intros st1 st2 dataArray width height Hp Hb Hbp Hr Hbs Hrs.
  unfold AudioVisualizer.drawFrame.
  assert (Hst : AudioVisualizer.updateState st1 dataArray
                = AudioVisualizer.updateState st2 dataArray).
  { unfold AudioVisualizer.updateState.
    rewrite Hp, Hb, Hbp, Hr, Hbs, Hrs. reflexivity. }
  rewrite Hst. reflexivity.
Qed.

Lemma frame_fixed_by_input_and_carried_record_witness :
  AudioVisualizer.drawFrame AudioVisualizer.initialAnimationState
    silence 800 600
  = AudioVisualizer.drawFrame
      (AudioVisualizer.mkAnimationState 0 AudioVisualizer.IDLE_AMPLITUDE
         0 20 0 20 true AudioVisualizer.MAX_AMPLITUDE)
      silence 800 600.
Proof.
  apply frame_fixed_by_input_and_carried_record; reflexivity.
Defined.
Lemma band_floor :
  forall (a len : Z) (k : positive),
    Qfloor ((inject_Z a / inject_Z AudioVisualizer.NUM_LINES)
            * (inject_Z len / inject_Z (Zpos k)))
    = ((a * len) / (8 * Zpos k))%Z.
Proof.
  intros a len k.
  assert (E : (inject_Z a / inject_Z AudioVisualizer.NUM_LINES)
              * (inject_Z len / inject_Z (Zpos k))
              == (a * len)%Z # (8 * k)).
  { unfold Qeq, Qdiv, Qmult, Qinv, inject_Z, AudioVisualizer.NUM_LINES.
    cbn. ring. }
  rewrite (Qfloor_comp _ _ E). reflexivity.
Qed.

Lemma isMiddleLine_iff :
  forall lineIndex : Z,
    AudioVisualizer.isMiddleLine lineIndex = true
    <-> (2 <= lineIndex <= 6)%Z.
Proof.
  intro l. unfold AudioVisualizer.isMiddleLine, AudioVisualizer.NUM_LINES.
  change (inject_Z 8 / 2) with (8 # 2). change (inject_Z 8 * (3 # 10)) with (24 # 10).
  split.
  - intro H. apply Qltb_true in H.
    apply Qabs_Qlt_condition in H. destruct H as [Hlo Hhi].
    destruct (Z_le_gt_dec l 1) as [H1|H1].
    { rewrite Zle_Qle in H1. change (inject_Z 1) with 1 in H1. lra. }
    destruct (Z_le_gt_dec 7 l) as [H7|H7].
    { rewrite Zle_Qle in H7. change (inject_Z 7) with 7 in H7. lra. }
    lia.
  - intros [H2 H6]. rewrite Zle_Qle in H2, H6.
    change (inject_Z 2) with 2 in H2. change (inject_Z 6) with 6 in H6.
    unfold Qltb. apply negb_true_iff.
    destruct (Qle_bool (24 # 10) (Qabs (inject_Z l - (8 # 2)))) eqn:E; [|reflexivity].
    apply Qle_bool_iff in E.
    assert (Hlt : Qabs (inject_Z l - (8 # 2)) < 24 # 10).
    { apply Qabs_Qlt_condition. split; lra. }
    lra.
Qed.

(** The band of a line, with integer division. *)
Lemma band_formula :
  forall lineIndex len : Z,
    (AudioVisualizer.isMiddleLine lineIndex = true
     <-> (2 <= lineIndex <= 6)%Z)
    /\ AudioVisualizer.binStart lineIndex len
       = (if AudioVisualizer.isMiddleLine lineIndex
          then (lineIndex * len) / 32 else (lineIndex * len) / 24)%Z
    /\ AudioVisualizer.binEnd lineIndex len
       = (if AudioVisualizer.isMiddleLine lineIndex
          then ((lineIndex + 1) * len) / 32
          else ((lineIndex + 1) * len) / 24)%Z.
Proof.
  intros l len. split; [apply isMiddleLine_iff|].
  unfold AudioVisualizer.binStart, AudioVisualizer.binEnd,
    AudioVisualizer.freqRange.
  destruct (AudioVisualizer.isMiddleLine l); split.
  - exact (band_floor l len 4).
  - exact (band_floor (l + 1) len 4).
  - exact (band_floor l len 3).
  - exact (band_floor (l + 1) len 3).
Qed.

Lemma line_cases :
  forall l : Z,
    (0 <= l < AudioVisualizer.NUM_LINES)%Z ->
    l = 0%Z \/ l = 1%Z \/ l = 2%Z \/ l = 3%Z \/ l = 4%Z \/ l = 5%Z
    \/ l = 6%Z \/ l = 7%Z.
Proof. unfold AudioVisualizer.NUM_LINES; intros l H; lia. Qed.

Lemma band_table :
  forall len : Z,
    (AudioVisualizer.binStart 0 len = 0 / 24
     /\ AudioVisualizer.binEnd 0 len = len / 24
     /\ AudioVisualizer.binStart 1 len = len / 24
     /\ AudioVisualizer.binEnd 1 len = (2 * len) / 24)%Z
    /\ (AudioVisualizer.binStart 2 len = (2 * len) / 32
        /\ AudioVisualizer.binEnd 2 len = (3 * len) / 32
        /\ AudioVisualizer.binStart 3 len = (3 * len) / 32
        /\ AudioVisualizer.binEnd 3 len = (4 * len) / 32)%Z
    /\ (AudioVisualizer.binStart 4 len = (4 * len) / 32
        /\ AudioVisualizer.binEnd 4 len = (5 * len) / 32
        /\ AudioVisualizer.binStart 5 len = (5 * len) / 32
        /\ AudioVisualizer.binEnd 5 len = (6 * len) / 32)%Z
    /\ (AudioVisualizer.binStart 6 len = (6 * len) / 32
        /\ AudioVisualizer.binEnd 6 len = (7 * len) / 32
        /\ AudioVisualizer.binStart 7 len = (7 * len) / 24
        /\ AudioVisualizer.binEnd 7 len = (8 * len) / 24)%Z.
Proof.
  intro len.
  repeat match goal with
  | |- context [AudioVisualizer.binStart ?l len] =>
      rewrite (proj1 (proj2 (band_formula l len)))
  | |- context [AudioVisualizer.binEnd ?l len] =>
      rewrite (proj2 (proj2 (band_formula l len)))
  end.
  repeat match goal with
  | |- context [AudioVisualizer.isMiddleLine ?l] =>
      let b := eval vm_compute in (AudioVisualizer.isMiddleLine l) in
      change (AudioVisualizer.isMiddleLine l) with b
  end.
  cbv iota. simpl (_ + 1)%Z. rewrite !Z.mul_1_l. repeat split.
Qed.

(** X1. The band of a line in closed form: the middle lines are the lines
    2 to 6; their band runs from [floor (l * len / 32)] to
    [floor ((l + 1) * len / 32)], that of the other lines from
    [floor (l * len / 24)] to [floor ((l + 1) * len / 24)]. *)
Theorem band_closed_form :
  forall lineIndex len : Z,
    (AudioVisualizer.isMiddleLine lineIndex = true
     <-> (2 <= lineIndex <= 6)%Z)
    /\ AudioVisualizer.binStart lineIndex len
       = (if AudioVisualizer.isMiddleLine lineIndex
          then (lineIndex * len) / 32 else (lineIndex * len) / 24)%Z
    /\ AudioVisualizer.binEnd lineIndex len
       = (if AudioVisualizer.isMiddleLine lineIndex
          then ((lineIndex + 1) * len) / 32
          else ((lineIndex + 1) * len) / 24)%Z.
Proof. exact band_formula. Qed.

(** Two buffers that agree where a summing loop reads give the same sum. *)
Lemma sumLoop_agree :
  forall (d1 d2 : list Z) (n : nat) (lo : Z) (acc : option Z),
    (forall i : Z,
        (lo <= i < lo + Z.of_nat n)%Z -> readByte d1 i = readByte d2 i) ->
    sumLoop d1 lo n acc = sumLoop d2 lo n acc.
Proof.
  intros d1 d2 n; induction n as [|n IH]; intros lo acc Hagree.
  - reflexivity.
  - cbn [sumLoop]. rewrite (Hagree lo) by lia.
    apply IH. intros i Hi. apply Hagree. lia.
Qed.

(** X2. The averaging loop of a line only reads bins of the lowest third
    of the buffer: every bin of a band satisfies [0 <= bin] and
    [3 * bin < bufferLength].  Hence the sum and the average of a band are
    the same for two buffers of that length that agree on these bins,
    whatever they hold in the upper two thirds. *)
Theorem band_reads_lowest_third :
  forall lineIndex len : Z,
    (0 <= lineIndex < AudioVisualizer.NUM_LINES)%Z ->
    (0 <= len)%Z ->
    (forall bin : Z,
        (AudioVisualizer.binStart lineIndex len <= bin
         < AudioVisualizer.binEnd lineIndex len)%Z ->
        (0 <= bin /\ 3 * bin < len)%Z)
    /\ (forall d1 d2 : list Z,
           AudioVisualizer.bufferLength d1 = len ->
           AudioVisualizer.bufferLength d2 = len ->
           (forall bin : Z,
               (0 <= bin)%Z -> (3 * bin < len)%Z ->
               readByte d1 bin = readByte d2 bin) ->
           AudioVisualizer.freqSum d1 lineIndex
           = AudioVisualizer.freqSum d2 lineIndex
           /\ AudioVisualizer.freqAvg d1 lineIndex
              = AudioVisualizer.freqAvg d2 lineIndex).
Proof.
  intros l len Hl Hlen.
  assert (Hband : forall bin : Z,
             (AudioVisualizer.binStart l len <= bin
              < AudioVisualizer.binEnd l len)%Z ->
             (0 <= bin /\ 3 * bin < len)%Z).
  { intros bin Hbin.
    destruct (band_table len)
      as ((S0 & E0 & S1 & E1) & (S2 & E2 & S3 & E3)
          & (S4 & E4 & S5 & E5) & (S6 & E6 & S7 & E7)).
    destruct (line_cases l Hl) as [->|[->|[->|[->|[->|[->|[->| ->]]]]]]];
      match goal with
      | Hs : AudioVisualizer.binStart ?k len = _,
        He : AudioVisualizer.binEnd ?k len = _,
        H : (AudioVisualizer.binStart ?k len <= _ < _)%Z |- _ =>
          rewrite Hs, He in H
      end;
      Z.to_euclidean_division_equations; lia. }
  split; [exact Hband|].
  intros d1 d2 H1 H2 Hagree.
  assert (Hsum : AudioVisualizer.freqSum d1 l = AudioVisualizer.freqSum d2 l).
  { unfold AudioVisualizer.freqSum, sumRange. rewrite H1, H2.
    apply sumLoop_agree. intros i Hi.
    destruct (band_bounds l len Hl Hlen) as (Hs & Hse & He).
    destruct (Hband i) as [Hi0 Hi3]; [lia|].
    now apply Hagree. }
  split; [exact Hsum|].
  unfold AudioVisualizer.freqAvg. rewrite Hsum, H1, H2. reflexivity.
Qed.

Lemma band_reads_lowest_third_witness :
  (0 <= 340 /\ 3 * 340 < 1024)%Z.
Proof.
  refine (proj1 (band_reads_lowest_third 7 1024 _ _) 340%Z _).
  - unfold AudioVisualizer.NUM_LINES; lia.
  - lia.
  - vm_compute. split; [discriminate | reflexivity].
Defined.

(** The average over the whole buffer (line 127) does read the upper two
    thirds: a buffer that is silent below bin 342 and loud above is
    active, the silent buffer is not. *)
Lemma whole_average_reads_upper_bins :
  AudioVisualizer.isActive (AudioVisualizer.average silence) = false
  /\ AudioVisualizer.isActive
       (AudioVisualizer.average
          (List.repeat 0%Z 342 ++ List.repeat 255%Z 682)) = true.
Proof. split; vm_compute; reflexivity. Qed.

(** X3. How the eight bands lie in a buffer of at least 48 bins: the
    bands of lines 0 and 1 are adjacent, those of lines 2 to 6 are
    adjacent one after the other, the band of line 2 starts inside the
    band of line 1, and the bins between the band of line 6 and the band
    of line 7 belong to no band. *)
Theorem band_layout :
  forall len : Z,
    (48 <= len)%Z ->
    AudioVisualizer.binEnd 0 len = AudioVisualizer.binStart 1 len
    /\ (forall l, (2 <= l <= 5)%Z ->
           AudioVisualizer.binEnd l len
           = AudioVisualizer.binStart (l + 1) len)
    /\ (AudioVisualizer.binStart 1 len < AudioVisualizer.binStart 2 len
        < AudioVisualizer.binEnd 1 len)%Z
    /\ (AudioVisualizer.binEnd 6 len < AudioVisualizer.binStart 7 len)%Z.
Proof.
  intros len Hlen.
  destruct (band_table len)
    as ((S0 & E0 & S1 & E1) & (S2 & E2 & S3 & E3)
        & (S4 & E4 & S5 & E5) & (S6 & E6 & S7 & E7)).
  split; [congruence|]. split.
  - intros l Hl.
    assert (C : (l = 2 \/ l = 3 \/ l = 4 \/ l = 5)%Z) by lia.
    destruct C as [->|[->|[->| ->]]]; cbn [Z.add Pos.add Pos.succ];
      congruence.
  - rewrite S1, S2, E1, E6, S7.
    Z.to_euclidean_division_equations. lia.
Qed.

Lemma band_layout_witness :
  (AudioVisualizer.binEnd 6 1024 < AudioVisualizer.binStart 7 1024)%Z.
Proof.
  refine (proj2 (proj2 (proj2 (band_layout 1024 _)))). lia.
Defined.

(** ** More on the amplitude *)

Lemma Qltb_iff : forall a b : Q, Qltb a b = true <-> a < b.
Proof.
  intros a b; split; [apply Qltb_true|].
  intro H. unfold Qltb. apply negb_true_iff.
  destruct (Qle_bool b a) eqn:E; [|reflexivity].
  apply Qle_bool_iff in E. lra.
Qed.

(** The sum over the whole buffer, and what the average is made of. *)
Lemma average_as_quotient :
  forall dataArray : list Z,
    exists sum,
      sumRange dataArray 0 (AudioVisualizer.bufferLength dataArray) = Some sum
      /\ (forall top, Forall (fun b => (b <= top)%Z) dataArray ->
                      (sum <= top * AudioVisualizer.bufferLength dataArray)%Z)
      /\ AudioVisualizer.average dataArray
         = if (AudioVisualizer.bufferLength dataArray =? 0)%Z then None
           else Some (inject_Z sum
                      / inject_Z (AudioVisualizer.bufferLength dataArray)).
Proof.
  intro dataArray.
  destruct (sumRange_in_range dataArray 0
              (AudioVisualizer.bufferLength dataArray))
    as (s & Hs & Hbound);
    [lia | unfold AudioVisualizer.bufferLength; lia
     | unfold AudioVisualizer.bufferLength; lia |].
  exists s. split; [exact Hs|]. split.
  - intros top Hall. specialize (Hbound top Hall). lia.
  - unfold AudioVisualizer.average. now rewrite Hs.
Qed.

Lemma bufferLength_nonneg :
  forall dataArray : list Z, (0 <= AudioVisualizer.bufferLength dataArray)%Z.
Proof. intro d; unfold AudioVisualizer.bufferLength; lia. Qed.

(** The activity test in integers. *)
Lemma isActive_average :
  forall (dataArray : list Z) (sum : Z),
    sumRange dataArray 0 (AudioVisualizer.bufferLength dataArray) = Some sum ->
    (AudioVisualizer.isActive (AudioVisualizer.average dataArray) = true
     <-> (15 * AudioVisualizer.bufferLength dataArray < sum)%Z).
Proof.
  intros dataArray sum Hsum.
  destruct (average_as_quotient dataArray) as (s & Hs & Hb & Havg).
  rewrite Hsum in Hs. injection Hs as <-.
  pose proof (bufferLength_nonneg dataArray) as Hlen.
  rewrite Havg.
  destruct (Z.eqb_spec (AudioVisualizer.bufferLength dataArray) 0) as [E|E].
  - cbn. rewrite E in *. cbn in Hsum. injection Hsum as <-.
    split; [discriminate | lia].
  - cbn [AudioVisualizer.isActive]. rewrite Qltb_iff.
    change (AudioVisualizer.NOISE_THRESHOLD + 5) with 15.
    assert (Hpos : 0 < inject_Z (AudioVisualizer.bufferLength dataArray)).
    { change 0 with (inject_Z 0). rewrite <- Zlt_Qlt. lia. }
    split.
    + intro H. apply (Qmult_lt_r _ _ _ Hpos) in H.
      assert (Hq : inject_Z sum
                   / inject_Z (AudioVisualizer.bufferLength dataArray)
                   * inject_Z (AudioVisualizer.bufferLength dataArray)
                   == inject_Z sum) by (field; lra).
      rewrite Hq in H. change 15 with (inject_Z 15) in H.
      rewrite <- inject_Z_mult, <- Zlt_Qlt in H. exact H.
    + intro H. apply Qlt_shift_div_l; [exact Hpos|].
      change 15 with (inject_Z 15).
      rewrite <- inject_Z_mult, <- Zlt_Qlt. exact H.
Qed.

(** X4. Whether a frame counts as active, in terms of the bytes it read:
    the sum of the bytes must exceed 15 times their number; an empty
    buffer, whose average is not a number, is inactive. *)
Theorem activity_threshold_in_bytes :
  forall (st : AudioVisualizer.AnimationState) (dataArray : list Z),
    exists sum,
      sumRange dataArray 0 (AudioVisualizer.bufferLength dataArray) = Some sum
      /\ (AudioVisualizer.active (AudioVisualizer.updateState st dataArray)
          = true
          <-> (15 * AudioVisualizer.bufferLength dataArray < sum)%Z)
      /\ (dataArray = [] ->
          AudioVisualizer.average dataArray = None
          /\ AudioVisualizer.active
               (AudioVisualizer.updateState st dataArray) = false).
Proof.
  intros st dataArray.
  destruct (average_as_quotient dataArray) as (s & Hs & _ & _).
  exists s. split; [exact Hs|]. split.
  - exact (isActive_average dataArray s Hs).
  - intros ->. split; reflexivity.
Qed.

(** An inactive frame aims at the idle amplitude. *)
Lemma inactive_target :
  forall avg : number,
    AudioVisualizer.isActive avg = false ->
    AudioVisualizer.nextTargetAmplitude avg = AudioVisualizer.IDLE_AMPLITUDE.
Proof.
  intros avg H. unfold AudioVisualizer.nextTargetAmplitude.
  destruct avg as [a|]; [|reflexivity]. now rewrite H.
Qed.

Lemma quiet_frame_inactive :
  forall dataArray : list Z,
    Forall (fun b => (b <= 15)%Z) dataArray ->
    AudioVisualizer.isActive (AudioVisualizer.average dataArray) = false.
Proof.
  intros dataArray Hall.
  destruct (average_as_quotient dataArray) as (s & Hs & Hb & _).
  specialize (Hb 15%Z Hall).
  destruct (AudioVisualizer.isActive (AudioVisualizer.average dataArray))
    eqn:E; [|reflexivity].
  apply (isActive_average dataArray s Hs) in E. lia.
Qed.

(** X5. Quiet input never moves the amplitude: when no byte of any frame
    exceeds 15, after any number of frames from the initial record the
    frame is inactive, the target is the idle amplitude and the base
    amplitude is still 10. *)
Theorem quiet_input_stays_idle :
  forall frames : list (list Z),
    Forall (Forall (fun b => (b <= 15)%Z)) frames ->
    let st := AudioVisualizer.runFrames frames
                AudioVisualizer.initialAnimationState in
    AudioVisualizer.active st = false
    /\ AudioVisualizer.targetAmplitude st = AudioVisualizer.IDLE_AMPLITUDE
    /\ AudioVisualizer.baseAmplitude st == AudioVisualizer.IDLE_AMPLITUDE.
Proof.
  intros frames Hall. cbv zeta.
  assert (G : forall st,
             AudioVisualizer.active st = false
             /\ AudioVisualizer.targetAmplitude st
                = AudioVisualizer.IDLE_AMPLITUDE
             /\ AudioVisualizer.baseAmplitude st
                == AudioVisualizer.IDLE_AMPLITUDE ->
             AudioVisualizer.active (AudioVisualizer.runFrames frames st)
               = false
             /\ AudioVisualizer.targetAmplitude
                  (AudioVisualizer.runFrames frames st)
                = AudioVisualizer.IDLE_AMPLITUDE
             /\ AudioVisualizer.baseAmplitude
                  (AudioVisualizer.runFrames frames st)
                == AudioVisualizer.IDLE_AMPLITUDE).
  { unfold AudioVisualizer.runFrames.
    induction Hall as [|d ds Hd Hds IH]; intros st Hst; [exact Hst|].
    cbn [fold_left]. apply IH.
    pose proof (quiet_frame_inactive d Hd) as Hq.
    destruct Hst as (_ & _ & Hbase).
    cbn [AudioVisualizer.updateState AudioVisualizer.active
         AudioVisualizer.targetAmplitude AudioVisualizer.baseAmplitude].
    rewrite (inactive_target _ Hq).
    split; [exact Hq|]. split; [reflexivity|].
    unfold AudioVisualizer.IDLE_AMPLITUDE in *. lra. }
  apply G. repeat split; reflexivity.
Qed.

Lemma quiet_input_stays_idle_witness :
  AudioVisualizer.baseAmplitude
    (AudioVisualizer.runFrames [[15; 3]%Z; [0; 0]%Z]
       AudioVisualizer.initialAnimationState)
  == AudioVisualizer.IDLE_AMPLITUDE.
Proof.
  refine (proj2 (proj2 (quiet_input_stays_idle [[15; 3]%Z; [0; 0]%Z] _))).
  repeat constructor; lia.
Defined.



(** X7. A sound just above the threshold shrinks the curves: for an
    average between 15 and 20 the frame is active and its target
    amplitude, half the average, lies below the idle amplitude; from an
    average of 20 on it is at least the idle amplitude. *)
Theorem faint_sound_targets_below_idle :
  forall a : Q,
    15 < a ->
    a <= 255 ->
    AudioVisualizer.isActive (Some a) = true
    /\ AudioVisualizer.nextTargetAmplitude (Some a) == a * (5 # 10)
    /\ (a < 20 ->
        AudioVisualizer.nextTargetAmplitude (Some a)
        < AudioVisualizer.IDLE_AMPLITUDE)
    /\ (20 <= a ->
        AudioVisualizer.IDLE_AMPLITUDE
        <= AudioVisualizer.nextTargetAmplitude (Some a)).
Proof.
  intros a Hlow Hhigh.
  assert (Hact : AudioVisualizer.isActive (Some a) = true).
  { cbn. apply Qltb_iff. exact Hlow. }
  destruct (nextTargetAmplitude_bounds (Some a)) as (_ & _ & Hclamp).
  { intros a0 Ha0. injection Ha0 as <-. exact Hhigh. }
  destruct (Hclamp a eq_refl Hact) as [_ Ht].
  split; [exact Hact|]. split; [exact Ht|].
  unfold AudioVisualizer.IDLE_AMPLITUDE. split; intro H; lra.
Qed.

Lemma faint_sound_targets_below_idle_witness :
  AudioVisualizer.nextTargetAmplitude (Some 16) == 16 * (5 # 10).
Proof.
  refine (proj1 (proj2 (faint_sound_targets_below_idle 16 _ _))); lra.
Defined.

(** ** More on the points of the curves *)

Lemma sumLoop_nan :
  forall (dataArray : list Z) (n : nat) (lo : Z),
    sumLoop dataArray lo n None = None.
Proof.
  intros dataArray n; induction n as [|n IH]; intro lo; [reflexivity|].
  cbn [sumLoop]. apply IH.
Qed.

(** Bytes that are not negative sum up to no less than the start. *)
Lemma sumLoop_nonneg :
  forall (dataArray : list Z) (n : nat) (lo acc s : Z),
    Forall (fun b => (0 <= b)%Z) dataArray ->
    sumLoop dataArray lo n (Some acc) = Some s ->
    (acc <= s)%Z.
Proof.
  intros dataArray n; induction n as [|n IH]; intros lo acc s Hall Hs.
  - cbn in Hs. injection Hs as <-. lia.
  - cbn [sumLoop] in Hs.
    destruct (readByte dataArray lo) as [b|] eqn:Hb.
    + assert (Hin : In b dataArray).
      { unfold readByte in Hb. destruct (lo <? 0)%Z; [discriminate|].
        eapply nth_error_In; eassumption. }
      rewrite Forall_forall in Hall. pose proof (Hall b Hin) as Hb0.
      apply IH in Hs; [lia | now apply Forall_forall].
    + rewrite sumLoop_nan in Hs. discriminate.
Qed.

(** With bytes between 0 and 255 the average of a band lies between 0
    and 255. *)
Lemma freqAvg_bounds :
  forall (dataArray : list Z) (lineIndex : Z),
    Forall (fun b => (0 <= b <= 255)%Z) dataArray ->
    (0 <= lineIndex < AudioVisualizer.NUM_LINES)%Z ->
    exists a,
      AudioVisualizer.freqAvg dataArray lineIndex = Some a
      /\ 0 <= a <= 255.
Proof.
  intros dataArray lineIndex Hall Hline.
  assert (Hlow : Forall (fun b => (0 <= b)%Z) dataArray).
  { eapply Forall_impl; [|exact Hall]. cbn; intros; lia. }
  assert (Hhigh : Forall (fun b => (b <= 255)%Z) dataArray).
  { eapply Forall_impl; [|exact Hall]. cbn; intros; lia. }
  destruct (band_bounds lineIndex (AudioVisualizer.bufferLength dataArray)
              Hline (bufferLength_nonneg dataArray)) as (Hs & Hse & He).
  unfold AudioVisualizer.freqAvg, AudioVisualizer.freqSum.
  destruct (sumRange_in_range dataArray _ _ Hs Hse He) as (s & Hsum & Hup).
  rewrite Hsum. eexists; split; [reflexivity|].
  specialize (Hup 255%Z Hhigh).
  pose proof (sumLoop_nonneg dataArray _ _ _ _ Hlow Hsum) as Hs0.
  set (c := AudioVisualizer.binCount lineIndex
              (AudioVisualizer.bufferLength dataArray)).
  assert (Hc : (1 <= c)%Z) by (unfold c, AudioVisualizer.binCount; lia).
  assert (Hsc : (s <= 255 * c)%Z)
    by (unfold c, AudioVisualizer.binCount; lia).
  assert (Hpos : 0 < inject_Z c).
  { change 0 with (inject_Z 0). rewrite <- Zlt_Qlt. lia. }
  split.
  - apply Qle_shift_div_l; [exact Hpos|].
    rewrite Qmult_0_l. change 0 with (inject_Z 0). now rewrite <- Zle_Qle.
  - apply Qle_shift_div_r; [exact Hpos|].
    change 255 with (inject_Z 255).
    now rewrite <- inject_Z_mult, <- Zle_Qle.
Qed.

Section Envelope.
Local Open Scope R_scope.

(** A factor bounded by [c] times a value bounded by [K]. *)
Lemma product_bound :
  forall s f c K : R,
    - c <= s <= c -> - K <= f <= K -> - (c * K) <= s * f <= c * K.
Proof. intros s f c K [Hs1 Hs2] [Hf1 Hf2]. split; nra. Qed.

(** The edge factor lies between 0 and 1 everywhere. *)
Lemma edgeFactor_range :
  forall t : R, 0 <= AudioVisualizer.edgeFactor t <= 1.
Proof.
  intro t. unfold AudioVisualizer.edgeFactor, AudioVisualizer.Math_pow_half.
  split; [apply sqrt_pos|].
  apply Rle_trans with (sqrt 1); [|rewrite sqrt_1; lra].
  apply sqrt_le_1_alt.
  pose proof (Rle_0_sqr (1 - 2 * t)) as Hsq. unfold Rsqr in Hsq. lra.
Qed.

Lemma midBoost_range :
  forall t : R, - (1 / 2) <= 1 + AudioVisualizer.midBoost t <= 5 / 2.
Proof.
  intro t. unfold AudioVisualizer.midBoost.
  destruct (SIN_bound (t * PI)) as [Hl Hh].
  set (s := sin (t * PI)) in *.
  assert (H3 : -1 <= s ^ 3 <= 1) by (split; nra).
  split; lra.
Qed.

(** The envelope [edgeFactor * (1 + midBoost)] is at most 5/2 in size. *)
Lemma enhancedEdgeFactor_range :
  forall t : R,
    - (5 / 2) <= AudioVisualizer.enhancedEdgeFactor t <= 5 / 2.
Proof.
  intro t. unfold AudioVisualizer.enhancedEdgeFactor.
  destruct (edgeFactor_range t) as [He0 He1].
  destruct (midBoost_range t) as [Hm0 Hm1].
  split; nra.
Qed.

(** The amplitude of a point is at most [base * 5/2 * 101/100] in size. *)
Lemma amplitude_range :
  forall (st : AudioVisualizer.AnimationState) (t : R),
    0 <= Q2R (AudioVisualizer.baseAmplitude st) ->
    let K := Q2R (AudioVisualizer.baseAmplitude st) * (5 / 2) * (101 / 100) in
    - K <= AudioVisualizer.amplitude st t <= K.
Proof.
  intros st t HB. cbv zeta. unfold AudioVisualizer.amplitude.
  set (B := Q2R (AudioVisualizer.baseAmplitude st)) in *.
  pose proof (enhancedEdgeFactor_range t) as HE.
  assert (H1 : - (B * (5 / 2))
               <= B * AudioVisualizer.enhancedEdgeFactor t <= B * (5 / 2)).
  { apply product_bound; [split; lra | exact HE]. }
  destruct (SIN_bound (Q2R (AudioVisualizer.breathPhase st))) as [Sl Sh].
  assert (H2 : - (101 / 100)
               <= 1 + sin (Q2R (AudioVisualizer.breathPhase st)) * (1 / 100)
               <= 101 / 100) by (split; lra).
  pose proof (product_bound _ _ _ _ H1 H2) as H3.
  exact H3.
Qed.

Lemma Q2R_byte_range :
  forall a : Q, (0 <= a <= 255)%Q -> 0 <= Q2R a / 255 <= 1.
Proof.
  intros a [H0 H1]. apply Qle_Rle in H0, H1.
  replace (Q2R 0) with 0 in H0 by (unfold Q2R; cbn; lra).
  replace (Q2R 255) with 255 in H1 by (unfold Q2R; cbn; lra).
  split; lra.
Qed.

(** The waveform value is a number, at most 12/10 of the amplitude bound
    in size in an active frame and at most 3/10 of it in an idle one. *)
Lemma waveformValue_range :
  forall (st : AudioVisualizer.AnimationState) (dataArray : list Z)
         (lineIndex : Z) (t : R),
    Forall (fun b => (0 <= b <= 255)%Z) dataArray ->
    (0 <= lineIndex < AudioVisualizer.NUM_LINES)%Z ->
    0 <= Q2R (AudioVisualizer.baseAmplitude st) ->
    let K := Q2R (AudioVisualizer.baseAmplitude st) * (5 / 2) * (101 / 100) in
    let c := if AudioVisualizer.active st then 12 / 10 else 3 / 10 in
    exists v,
      AudioVisualizer.waveformValue st dataArray lineIndex t = Some v
      /\ - (c * K) <= v <= c * K.
Proof.
  intros st dataArray lineIndex t Hall Hline HB. cbv zeta.
  pose proof (amplitude_range st t HB) as HA. cbv zeta in HA.
  set (K := Q2R (AudioVisualizer.baseAmplitude st) * (5 / 2) * (101 / 100))
    in *.
  unfold AudioVisualizer.waveformValue, AudioVisualizer.freqFactor.
  destruct (AudioVisualizer.active st).
  - destruct (freqAvg_bounds dataArray lineIndex Hall Hline) as (a & Ha & Hr).
    rewrite Ha. eexists; split; [reflexivity|].
    pose proof (Q2R_byte_range a Hr) as Hq.
    assert (Hf : - (1 * K) <= Q2R a / 255 * AudioVisualizer.amplitude st t
                 <= 1 * K).
    { apply product_bound; [split; lra | exact HA]. }
    set (f := Q2R a / 255 * AudioVisualizer.amplitude st t) in *.
    pose proof (product_bound _ f 1 K
                  (SIN_bound (t * 10 + Q2R (AudioVisualizer.phase st)
                              + AudioVisualizer.angleOffset lineIndex))) as P1.
    pose proof (product_bound _ (f * (2 / 10)) 1 (K * (2 / 10))
                  (SIN_bound (t * 20 + Q2R (AudioVisualizer.phase st)
                              * (15 / 10)))) as P2.
    assert (Hf1 : - K <= f <= K) by (split; lra).
    assert (Hf2 : - (K * (2 / 10)) <= f * (2 / 10) <= K * (2 / 10))
      by (split; lra).
    specialize (P1 Hf1). specialize (P2 Hf2). split; lra.
  - eexists; split; [reflexivity|].
    pose proof (product_bound _ (AudioVisualizer.amplitude st t) 1 K
                  (SIN_bound (t * 8 + Q2R (AudioVisualizer.phase st)
                              + AudioVisualizer.angleOffset lineIndex))
                  HA) as P1.
    pose proof (product_bound _ (AudioVisualizer.amplitude st t) 1 K
                  (SIN_bound (t * 16 + Q2R (AudioVisualizer.phase st)
                              * (13 / 10)))
                  HA) as P2.
    split; lra.
Qed.

(** The sample positions lie in the unit interval. *)
Lemma tOf_range :
  forall i : nat,
    (i <= 128)%nat -> 0 <= AudioVisualizer.tOf (Z.of_nat i) <= 1.
Proof.
  intros i Hi. unfold AudioVisualizer.tOf, AudioVisualizer.points.
  assert (H0 : 0 <= IZR (Z.of_nat i)) by (apply IZR_le; lia).
  assert (H1 : IZR (Z.of_nat i) <= 128) by (apply IZR_le; lia).
  split; lra.
Qed.

(** The abscissa of a sample is within 103/100 of half the width of the
    centre. *)
Lemma pointX_range :
  forall (st : AudioVisualizer.AnimationState) (width : Z) (t : R),
    (0 <= width)%Z -> 0 <= t <= 1 ->
    - (103 / 100 * (IZR width / 2))
    <= AudioVisualizer.pointX st width t - AudioVisualizer.centerX width
    <= 103 / 100 * (IZR width / 2).
Proof.
  intros st width t Hw Ht.
  unfold AudioVisualizer.pointX, AudioVisualizer.xStretch.
  assert (HW : 0 <= IZR width) by (apply IZR_le; lia).
  destruct (SIN_bound (Q2R (AudioVisualizer.rotationAngle st) + t * PI * 2))
    as [Sl Sh].
  set (s := sin _) in *.
  assert (H1 : - (1 * (IZR width / 2))
               <= (t * 2 - 1) * (IZR width * (5 / 10))
               <= 1 * (IZR width / 2)).
  { replace (IZR width * (5 / 10)) with (IZR width / 2) by lra.
    apply product_bound; split; lra. }
  assert (H2 : - (103 / 100) <= 1 + s * (3 / 100) <= 103 / 100)
    by (split; lra).
  pose proof (product_bound _ _ _ _ H1 H2) as H3.
  split; lra.
Qed.

(** Every command of a curve is the command of one of the 129 samples. *)
Lemma curve_commands :
  forall (st : AudioVisualizer.AnimationState) (dataArray : list Z)
         (width height lineIndex : Z) (c : AudioVisualizer.PathCmd),
    In c (AudioVisualizer.curve st dataArray width height lineIndex) ->
    exists i : nat,
      (i <= 128)%nat
      /\ AudioVisualizer.cmdX c
         = AudioVisualizer.pointX st width (AudioVisualizer.tOf (Z.of_nat i))
      /\ AudioVisualizer.cmdY c
         = AudioVisualizer.pointY st dataArray height lineIndex
             (AudioVisualizer.tOf (Z.of_nat i)).
Proof.
  intros st dataArray width height lineIndex c Hc.
  unfold AudioVisualizer.curve in Hc.
  apply in_map_iff in Hc. destruct Hc as (i & <- & Hi).
  apply in_seq in Hi.
  change (Z.to_nat AudioVisualizer.points) with 128%nat in Hi.
  exists i. split; [lia|].
  unfold AudioVisualizer.pathCmd.
  destruct (Z.of_nat i =? 0)%Z; split; reflexivity.
Qed.

(** Every curve of a frame is the curve of one of the eight lines. *)
Lemma curves_lines :
  forall (st : AudioVisualizer.AnimationState) (dataArray : list Z)
         (width height : Z) (cv : list AudioVisualizer.PathCmd),
    In cv (AudioVisualizer.curves st dataArray width height) ->
    exists lineIndex : Z,
      (0 <= lineIndex < AudioVisualizer.NUM_LINES)%Z
      /\ cv = AudioVisualizer.curve st dataArray width height lineIndex.
Proof.
  intros st dataArray width height cv Hc.
  unfold AudioVisualizer.curves in Hc.
  apply in_map_iff in Hc. destruct Hc as (l & <- & Hl).
  apply in_seq in Hl.
  change (Z.to_nat AudioVisualizer.NUM_LINES) with 8%nat in Hl.
  exists (Z.of_nat l). split; [unfold AudioVisualizer.NUM_LINES; lia|].
  reflexivity.
Qed.
End Envelope.

Lemma bytes_upper :
  forall frames : list (list Z),
    Forall (Forall (fun b => (0 <= b <= 255)%Z)) frames ->
    Forall (Forall (fun b => (b <= 255)%Z)) frames.
Proof.
  intros frames H. eapply Forall_impl; [|exact H].
  intros d Hd. eapply Forall_impl; [|exact Hd]. cbn; intros; lia.
Qed.

(** X8. The curves of a frame stay near the horizontal centre line: with
    every byte between 0 and 255, in every frame reached from the initial
    record every point of every curve has a numeric ordinate, at most
    386.325 (= 1.2 * 2.5 * 1.01 * 127.5) away from [centerY]; in an idle
    frame at most 96.58125 away. *)
Theorem curve_ordinates_bounded :
  forall (frames : list (list Z)) (dataArray : list Z) (width height : Z),
    Forall (Forall (fun b => (0 <= b <= 255)%Z)) frames ->
    Forall (fun b => (0 <= b <= 255)%Z) dataArray ->
    let frame := AudioVisualizer.drawFrame
                   (AudioVisualizer.runFrames frames
                      AudioVisualizer.initialAnimationState)
                   dataArray width height in
    Forall
      (Forall
         (fun c =>
            exists v : R,
              AudioVisualizer.cmdY c = Some v
              /\ (Rabs (v - AudioVisualizer.centerY height)
                  <= 386325 / 1000)%R
              /\ (AudioVisualizer.active (fst frame) = false ->
                  Rabs (v - AudioVisualizer.centerY height)
                  <= 9658125 / 100000)%R))
      (snd frame).
Proof.
  intros frames dataArray width height Hframes Hdata. cbv zeta.
  cbn [AudioVisualizer.drawFrame fst snd].
  set (st := AudioVisualizer.updateState _ dataArray).
  assert (Hbase : (15 # 2) <= AudioVisualizer.baseAmplitude st <= (255 # 2)).
  { subst st. apply updateState_amplitude.
    - eapply Forall_impl; [|exact Hdata]. cbn; intros; lia.
    - apply runFrames_amplitude; [now apply bytes_upper|].
      cbn. unfold AudioVisualizer.IDLE_AMPLITUDE. split; lra. }
  destruct Hbase as [Hb0 Hb1]. apply Qle_Rle in Hb0, Hb1.
  replace (Q2R (15 # 2)) with (15 / 2)%R in Hb0 by (unfold Q2R; cbn; lra).
  replace (Q2R (255 # 2)) with (255 / 2)%R in Hb1 by (unfold Q2R; cbn; lra).
  apply Forall_forall. intros cv Hcv.
  destruct (curves_lines st dataArray width height cv Hcv) as (l & Hl & ->).
  apply Forall_forall. intros c Hc.
  destruct (curve_commands st dataArray width height l c Hc)
    as (i & _ & _ & Hy).
  destruct (waveformValue_range st dataArray l
              (AudioVisualizer.tOf (Z.of_nat i)) Hdata Hl)
    as (v & Hv & Hrange); [lra|].
  rewrite Hy. unfold AudioVisualizer.pointY. rewrite Hv.
  eexists; split; [reflexivity|].
  replace (AudioVisualizer.centerY height + v
           - AudioVisualizer.centerY height)%R with v by ring.
  destruct (AudioVisualizer.active st).
  - split; [apply Rabs_le; split; lra | discriminate].
  - split; intros; apply Rabs_le; split; lra.
Qed.

Lemma curve_ordinates_bounded_witness :
  Forall
    (Forall
       (fun c =>
          exists v : R,
            AudioVisualizer.cmdY c = Some v
            /\ (Rabs (v - AudioVisualizer.centerY 600) <= 386325 / 1000)%R
            /\ (AudioVisualizer.active
                  (fst (AudioVisualizer.drawFrame
                          (AudioVisualizer.runFrames [[255; 0]%Z]
                             AudioVisualizer.initialAnimationState)
                          [200; 100]%Z 800 600)) = false ->
                Rabs (v - AudioVisualizer.centerY 600)
                <= 9658125 / 100000)%R))
    (snd (AudioVisualizer.drawFrame
            (AudioVisualizer.runFrames [[255; 0]%Z]
               AudioVisualizer.initialAnimationState)
            [200; 100]%Z 800 600)).
Proof.
  apply (curve_ordinates_bounded [[255; 0]%Z] [200; 100]%Z 800 600).
  - repeat constructor; lia.
  - repeat constructor; lia.
Defined.

(** X9. The curves may leave the canvas sideways, by at most 1.5 percent
    of its width: for a canvas of non-negative width every point of every
    curve of a frame has its abscissa between [-0.015 * width] and
    [1.015 * width]. *)
Theorem curve_abscissas_bounded :
  forall (st : AudioVisualizer.AnimationState) (dataArray : list Z)
         (width height : Z),
    (0 <= width)%Z ->
    Forall
      (Forall
         (fun c =>
            (- (15 / 1000) * IZR width <= AudioVisualizer.cmdX c
             <= 1015 / 1000 * IZR width)%R))
      (snd (AudioVisualizer.drawFrame st dataArray width height)).
Proof.
  intros st dataArray width height Hw.
  cbn [AudioVisualizer.drawFrame snd].
  apply Forall_forall. intros cv Hcv.
  destruct (curves_lines _ dataArray width height cv Hcv) as (l & _ & ->).
  apply Forall_forall. intros c Hc.
  destruct (curve_commands _ dataArray width height l c Hc)
    as (i & Hi & Hx & _).
  rewrite Hx.
  pose proof (pointX_range (AudioVisualizer.updateState st dataArray) width
                (AudioVisualizer.tOf (Z.of_nat i)) Hw (tOf_range i Hi)) as Hr.
  unfold AudioVisualizer.centerX in Hr. split; lra.
Qed.

Lemma curve_abscissas_bounded_witness :
  Forall
    (Forall
       (fun c =>
          (- (15 / 1000) * IZR 800 <= AudioVisualizer.cmdX c
           <= 1015 / 1000 * IZR 800)%R))
    (snd (AudioVisualizer.drawFrame AudioVisualizer.initialAnimationState
            silence 800 600)).
Proof.
  apply (curve_abscissas_bounded AudioVisualizer.initialAnimationState
           silence 800 600).
  lia.
Defined.

(** X10. The envelope peaks in the middle of a curve: at the sample
    [i = 64] the edge factor is 1, the envelope takes its largest value
    5/2, and the point drawn there, the 65th command of the curve, has the
    abscissa [centerX]. *)
Theorem envelope_peaks_at_middle :
  forall (st : AudioVisualizer.AnimationState) (dataArray : list Z)
         (width height lineIndex : Z),
    AudioVisualizer.edgeFactor (AudioVisualizer.tOf 64) = 1%R
    /\ AudioVisualizer.enhancedEdgeFactor (AudioVisualizer.tOf 64)
       = (5 / 2)%R
    /\ (forall t : R, AudioVisualizer.enhancedEdgeFactor t <= 5 / 2)%R
    /\ nth_error
         (AudioVisualizer.curve st dataArray width height lineIndex) 64
       = Some (AudioVisualizer.LineTo
                 (AudioVisualizer.centerX width)
                 (AudioVisualizer.pointY st dataArray height lineIndex
                    (AudioVisualizer.tOf 64))).
Proof.
  intros st dataArray width height lineIndex.
  assert (Ht : AudioVisualizer.tOf 64 = (1 / 2)%R).
  { unfold AudioVisualizer.tOf, AudioVisualizer.points. lra. }
  assert (He : AudioVisualizer.edgeFactor (1 / 2) = 1%R).
  { unfold AudioVisualizer.edgeFactor, AudioVisualizer.Math_pow_half.
    replace (4 * (1 / 2) * (1 - 1 / 2))%R with 1%R by lra. apply sqrt_1. }
  rewrite Ht. split; [exact He|]. split; [|split].
  - unfold AudioVisualizer.enhancedEdgeFactor, AudioVisualizer.midBoost.
    rewrite He. replace (1 / 2 * PI)%R with (PI / 2)%R by lra.
    rewrite sin_PI2. lra.
  - intro t. apply (proj2 (enhancedEdgeFactor_range t)).
  - unfold AudioVisualizer.curve. rewrite nth_error_map.
    change (nth_error (List.seq 0 (S (Z.to_nat AudioVisualizer.points))) 64)
      with (Some 64%nat).
    cbn [option_map]. unfold AudioVisualizer.pathCmd.
    change (Z.of_nat 64 =? 0)%Z with false. cbv iota.
    change (Z.of_nat 64) with 64%Z. rewrite Ht.
    f_equal. f_equal.
    unfold AudioVisualizer.pointX. lra.
Qed.

(** X11. Each curve is stroked as one connected path: its commands are a
    single [moveTo] followed by 128 [lineTo]. *)
Theorem curve_is_one_polyline :
  forall (st : AudioVisualizer.AnimationState) (dataArray : list Z)
         (width height lineIndex : Z),
    exists (x : R) (y : option R) (rest : list AudioVisualizer.PathCmd),
      AudioVisualizer.curve st dataArray width height lineIndex
      = AudioVisualizer.MoveTo x y :: rest
      /\ List.length rest = 128%nat
      /\ Forall (fun c => exists x' y', c = AudioVisualizer.LineTo x' y')
                rest.
Proof.
  intros st dataArray width height lineIndex.
  unfold AudioVisualizer.curve.
  change (Z.to_nat AudioVisualizer.points) with 128%nat.
  change (List.seq 0 129) with (0%nat :: List.seq 1 128).
  cbn [List.map]. do 3 eexists. split; [reflexivity|]. split.
  - now rewrite length_map, length_seq.
  - apply Forall_forall. intros c Hc.
    apply in_map_iff in Hc. destruct Hc as (i & <- & Hi).
    apply in_seq in Hi. unfold AudioVisualizer.pathCmd.
    destruct (Z.eqb_spec (Z.of_nat i) 0) as [E|_]; [lia|].
    do 2 eexists; reflexivity.
Qed.

(** ** More on the life cycle of the audio component *)

(** A refresh with nothing registered changes nothing. *)
Lemma displayRefresh_nothing_pending :
  forall (dataArray : list Z) (w : AudioVisualizer.World),
    AudioVisualizer.rafPending w = [] ->
    AudioVisualizer.displayRefresh dataArray w = w.
Proof.
  intros dataArray w H. unfold AudioVisualizer.displayRefresh.
  rewrite H. destruct w; cbn in *. now subst.
Qed.

Lemma refreshes_nothing_pending :
  forall (data : nat -> list Z) (n : nat) (w : AudioVisualizer.World),
    AudioVisualizer.rafPending w = [] ->
    AudioVisualizer.refreshes data n w = w.
Proof.
  intros data n w H; induction n as [|n IH]; [reflexivity|].
  cbn [AudioVisualizer.refreshes]. rewrite IH.
  now apply displayRefresh_nothing_pending.
Qed.



(** X13. The unmount stops the drawing loop: after a successful start,
    any number of refreshes and the unmount, nothing is registered and
    later refreshes run no frame and change nothing. *)
Theorem no_frame_after_unmount :
  forall (tracks : list TrackState) (data0 : list Z)
         (data later : nat -> list Z) (n m : nat),
    let w := AudioVisualizer.unmount
               (AudioVisualizer.refreshes data n
                  (AudioVisualizer.initAudio (AudioVisualizer.Granted tracks)
                     (AudioVisualizer.mkCanvas true true) data0
                     AudioVisualizer.mount)) in
    AudioVisualizer.rafPending w = []
    /\ AudioVisualizer.refreshes later m w = w
    /\ AudioVisualizer.animationState (AudioVisualizer.refreshes later m w)
       = AudioVisualizer.runFrames
           (data0 :: List.map data (List.seq 0 n))
           AudioVisualizer.initialAnimationState.
Proof.
  intros tracks data0 data later n m. cbv zeta.
  unfold AudioVisualizer.unmount.
  set (w1 := AudioVisualizer.refreshes data n _).
  assert (Hw1 : AudioVisualizer.audioContext (AudioVisualizer.effectEnv w1)
                = false
                /\ AudioVisualizer.animationState w1
                   = AudioVisualizer.runFrames
                       (data0 :: List.map data (List.seq 0 n))
                       AudioVisualizer.initialAnimationState).
  { subst w1. rewrite initAudio_granted_started.
    destruct (loop_after_refreshes data0 data n
                (AudioVisualizer.connectAudio
                   (AudioVisualizer.holdStream tracks AudioVisualizer.mount))
                eq_refl) as (_ & _ & _ & Hs & _ & He & _).
    rewrite He, Hs. split; reflexivity. }
  destruct Hw1 as [He Hs]. rewrite He. subst w1.
  destruct (cleanup_after_start false tracks data0 data n) as (Hp & _).
  split; [exact Hp|].
  rewrite (refreshes_nothing_pending later m _ Hp).
  split; [reflexivity|].
  rewrite <- Hs. reflexivity.
Qed.

Lemma stopTracks_twice :
  forall tracks : list TrackState,
    stopTracks (stopTracks tracks) = stopTracks tracks.
Proof.
  intro tracks; unfold stopTracks. rewrite map_map. reflexivity.
Qed.

Lemma cancelAnimationFrame_twice :
  forall (h : nat) (pending : list nat),
    AudioVisualizer.cancelAnimationFrame h
      (AudioVisualizer.cancelAnimationFrame h pending)
    = AudioVisualizer.cancelAnimationFrame h pending.
Proof.
  intros h pending. unfold AudioVisualizer.cancelAnimationFrame.
  induction pending as [|p ps IH]; [reflexivity|].
  cbn [filter]. destruct (negb (Nat.eqb p h)) eqn:E.
  - cbn [filter]. rewrite E. now rewrite IH.
  - exact IH.
Qed.

(** X14. Running the audio cleanup a second time changes nothing more,
    in any world and for either captured value. *)
Theorem cleanupAudio_idempotent :
  forall (captured : bool) (w : AudioVisualizer.World),
    AudioVisualizer.cleanupAudio captured
      (AudioVisualizer.cleanupAudio captured w)
    = AudioVisualizer.cleanupAudio captured w.
Proof.
  intros captured w. destruct w as [h e ar ms sr st tr cs sc rp rn co].
  unfold AudioVisualizer.cleanupAudio; cbn.
  f_equal.
  - destruct ms; [apply stopTracks_twice | reflexivity].
  - destruct captured; [|reflexivity]. now destruct cs.
  - now destruct sr.
  - destruct ar as [[|a]|]; try reflexivity.
    apply cancelAnimationFrame_twice.
Qed.

(** X15. A cleanup that runs before the stream is granted releases
    nothing, and the stream granted afterwards is left live: in the audio
    component the tracks stay as granted with the context running and the
    source connected, in the camera component the tracks stay as
    granted. *)
Theorem stream_granted_after_unmount_stays_live :
  forall (tracks : list TrackState) (canvas : AudioVisualizer.Canvas)
         (data0 : list Z),
    AudioVisualizer.unmount AudioVisualizer.mount = AudioVisualizer.mount
    /\ (let w := AudioVisualizer.initAudio (AudioVisualizer.Granted tracks)
                   canvas data0
                   (AudioVisualizer.unmount AudioVisualizer.mount) in
        AudioVisualizer.micTracks w = tracks
        /\ AudioVisualizer.contextState w = Some Running
        /\ AudioVisualizer.sourceConnected w = true)
    /\ CameraComponent.cleanup CameraComponent.mount = CameraComponent.mount
    /\ CameraComponent.camTracks
         (CameraComponent.setupCamera (CameraComponent.Granted tracks)
            (CameraComponent.cleanup CameraComponent.mount))
       = tracks.
Proof.
  intros tracks canvas data0.
  split; [reflexivity|]. split; [|split; reflexivity].
  cbv zeta. unfold AudioVisualizer.initAudio, AudioVisualizer.startDrawing.
  destruct (negb (AudioVisualizer.canvasPresent canvas));
    [repeat split|].
  destruct (negb (AudioVisualizer.context2d canvas)); repeat split.
Qed.

(** X16. When the stream is granted and the audio context then fails, the
    catch shows the error and releases nothing: the tracks stay as granted
    until the unmount, which ends them all. *)
Theorem failed_context_keeps_stream_until_unmount :
  forall (tracks : list TrackState) (err : JsError)
         (canvas : AudioVisualizer.Canvas) (data0 : list Z),
    let w := AudioVisualizer.initAudio
               (AudioVisualizer.ContextFailed tracks err) canvas data0
               AudioVisualizer.mount in
    AudioVisualizer.error (AudioVisualizer.hooks w)
    = Some (AudioVisualizer.errorMessage err)
    /\ AudioVisualizer.isListening (AudioVisualizer.hooks w) = false
    /\ AudioVisualizer.micTracks w = tracks
    /\ AudioVisualizer.contextState w = None
    /\ AudioVisualizer.micTracks (AudioVisualizer.unmount w)
       = stopTracks tracks.
Proof.
  intros tracks err canvas data0. cbn. repeat split.
Qed.

(** ** More on the camera component and the application shell *)

(** X17. In every world the camera component can reach, through any
    sequence of setups, metadata events and cleanups: the indicator is
    active only if the stream is bound to the video element, a bound
    stream is the one held in [videoStreamRef], and every message handed
    to [onError] is the one camera message. *)
Theorem camera_invariants :
  forall w : CameraComponent.World,
    cameraReachable w ->
    (CameraComponent.isCameraActive w = true ->
     CameraComponent.srcObjectBound w = true)
    /\ (CameraComponent.srcObjectBound w = true ->
        CameraComponent.videoStreamRef w = true)
    /\ CameraComponent.videoElement w = true
    /\ Forall (fun m => m = CameraComponent.cameraMessage)
              (CameraComponent.reported w).
Proof.
  intros w Hreach. induction Hreach as [|w w' _ IH Hstep].
  - cbn. repeat split; try discriminate. constructor.
  - destruct IH as (Ha & Hb & Hv & Hr).
    destruct Hstep as [o w|w|w].
    + destruct o as [tracks|err]; cbn.
      * rewrite Hv. repeat split; auto.
      * repeat split; auto.
        apply Forall_app; split; [exact Hr|]. now constructor.
    + destruct w as [active element held bound tracks logged sent].
      unfold CameraComponent.onloadedmetadata; cbn in *.
      destruct bound; cbn; repeat split; auto.
    + destruct w as [active element held bound tracks logged sent].
      unfold CameraComponent.cleanup; cbn in *.
      destruct held; cbn; repeat split; auto.
Qed.

Lemma camera_invariants_witness :
  Forall (fun m => m = CameraComponent.cameraMessage)
    (CameraComponent.reported
       (CameraComponent.onloadedmetadata
          (CameraComponent.setupCamera
             (CameraComponent.Failed (mkJsError "NotAllowedError"))
             CameraComponent.mount))).
Proof.
  refine (proj2 (proj2 (proj2 (camera_invariants _ _)))).
  eapply ReachStep; [|apply StepLoaded].
  eapply ReachStep; [apply ReachMount|apply StepSetup].
Defined.

(** X18. Clicks on the Send IPC button and error reports do not interfere:
    they commute, [n] clicks leave the error message as it is and write
    [n] lines to the console, and a report sends nothing. *)
Theorem clicks_and_errors_independent :
  forall (n : nat) (message : string) (w : App.World),
    App.clicks n (App.onError message w)
    = App.onError message (App.clicks n w)
    /\ App.errorMessage (App.clicks n w) = App.errorMessage w
    /\ App.console (App.clicks n w)
       = App.console w ++ List.repeat "IPC message sent"%string n
    /\ App.ipcSent (App.onError message w) = App.ipcSent w.
Proof.
  intros n message w.
  assert (Hc : App.clicks n (App.onError message w)
               = App.onError message (App.clicks n w)).
  { induction n as [|n IH]; [reflexivity|].
    cbn [App.clicks]. rewrite IH. reflexivity. }
  split; [exact Hc|]. clear Hc. split; [|split; [|reflexivity]].
  - induction n as [|n IH]; [reflexivity|]. exact IH.
  - induction n as [|n IH]; cbn [App.clicks List.repeat].
    + now rewrite app_nil_r.
    + cbn [App.ipcHandle App.console]. rewrite IH, <- app_assoc. f_equal.
      clear. induction n as [|n IHn]; [reflexivity|].
      cbn [List.repeat]. cbn [app]. now rewrite <- IHn.
Qed.
